(** * 54autoworks-proxy: the cart/session relay and the exchange-rate cache

    A shallow embedding of the two source files of the repository,
    [src/server.js] and its sibling [src/unnamed/part_000], and the
    properties of the relay handlers and of [fetchExchangeRates].

    The handlers are [async] JavaScript functions.  They are embedded as
    computations in a small monad that threads the module-level variables
    ([wooApiNonce], [cachedExchangeRates], [lastFetchTime]), the Express
    response object of the request being served, and an ordered trace of
    the effects the handler performs (outbound [fetch] calls, attempts to
    parse an upstream body, writes to module-level variables, responses
    sent).  What the outside world answers (the clock, the upstream
    services) is read from an oracle.  [console.*] logging has no effect on
    any of this and is left out, except where evaluating a logged
    expression can throw. *)

From stdpp Require Import base gmap strings list pretty.
From Stdlib Require Import Ascii QArith.

Set Warnings "-register-all".
Close Scope Q_scope.
Open Scope string_scope.
Open Scope list_scope.
Open Scope Z_scope.

(** ** JavaScript values *)

(** Values as [JSON.parse] produces them and as object literals of the
    program build them.  Numbers are rationals; an object is the list of
    its own properties in insertion order. *)
Inductive value : Type :=
| VUndefined
| VNull
| VBool (b : bool)
| VNum (q : Q)
| VStr (s : string)
| VArr (xs : list value)
| VObj (fields : list (string * value)).

(** Errors: the constructor's name and the [message] property. *)
Inductive error_kind : Type :=
| Error | TypeError | ReferenceError | SyntaxError | FetchError.

Record exn : Type := MkExn { kind : error_kind; message : string }.

(** Reading an identifier that is declared nowhere. *)
Definition not_defined (ident : string) : exn :=
  MkExn ReferenceError (ident +:+ " is not defined").

(** ToBoolean. *)
Definition truthy (v : value) : bool :=
  match v with
  | VUndefined | VNull => false
  | VBool b => b
  | VNum q => negb (Qnum q =? 0)
  | VStr s => negb (String.eqb s "")
  | VArr _ | VObj _ => true
  end.

(** [a || b] *)
Definition js_or (a b : value) : value := if truthy a then a else b.

(** [a === b] where [b] is a string literal. *)
Definition strict_eq_str (a : value) (b : string) : bool :=
  match a with
  | VStr s => String.eqb s b
  | _ => false
  end.

Fixpoint assoc (k : string) (fields : list (string * value)) : value :=
  match fields with
  | [] => VUndefined
  | (k', v) :: rest => if String.eqb k' k then v else assoc k rest
  end.

(** [v.k] for the property names the program reads ([message], [result],
    [conversion_rates], [USD], [ZAR], [error_type], [cartToken],
    [productId], [quantity], [key]); none of them is inherited from a
    built-in prototype, so on anything but an object the read gives
    [undefined], and on [null] and [undefined] it throws. *)
Definition get_prop (v : value) (k : string) : exn + value :=
  match v with
  | VUndefined =>
      inl (MkExn TypeError
             ("Cannot read properties of undefined (reading '" +:+ k +:+ "')"))
  | VNull =>
      inl (MkExn TypeError
             ("Cannot read properties of null (reading '" +:+ k +:+ "')"))
  | VObj fields => inr (assoc k fields)
  | _ => inr VUndefined
  end.

(** A string-or-[null] ([Headers.get]) and a string-or-[undefined]
    (a missing property of [req.headers], an unset environment variable)
    as values. *)
Definition or_null (o : option string) : value :=
  match o with Some s => VStr s | None => VNull end.

Definition or_undefined (o : option string) : value :=
  match o with Some s => VStr s | None => VUndefined end.

(** [if (x) { ... x ... }] on such a string: the branch is taken with a
    non-empty string only. *)
Definition as_truthy (o : option string) : option string :=
  match o with
  | Some s => if String.eqb s "" then None else Some s
  | None => None
  end.

(** ** Requests, responses and the outside world *)

(** An incoming request after [express.json()]: header names are lower
    case, as Node delivers them. *)
Record request : Type := MkRequest {
  req_headers : gmap string string;
  req_body : value;
}.

(** A call of [fetch(url, { method, headers, body })].  [out_body] is the
    argument of [JSON.stringify]. *)
Record outbound : Type := MkOutbound {
  out_url : string;
  out_method : string;
  out_headers : gmap string string;
  out_body : option value;
}.

(** What [fetch] resolves to: [resp_headers] is keyed by lower-case name
    ([Headers.get] is case-insensitive), [json] is the outcome of
    [response.json()]. *)
Record response : Type := MkResponse {
  status : Z;
  resp_headers : gmap string string;
  json : exn + value;
}.

(** [response.ok] *)
Definition ok (r : response) : bool := (200 <=? status r) && (status r <? 300).

(** The oracle: the successive readings of [Date.now()] and the outcomes
    of the successive [fetch] calls of the process. *)
Record world : Type := MkWorld {
  clock : nat -> Z;
  net : nat -> exn + response;
}.

(** The environment variables read at start-up. *)
Record config : Type := MkConfig {
  WOO_API_URL : option string;
  WOO_CONSUMER_KEY : option string;
  WOO_CONSUMER_SECRET : option string;
  EXCHANGE_RATE_API_KEY : option string;
}.

(** ** Process state and effects *)

Inductive payload : Type :=
| NoBody
| JsonBody (v : value).

(** The Express response object while it is being prepared. *)
Record res_obj : Type := MkRes {
  statusCode : Z;
  res_headers : gmap string string;
}.

Definition fresh_res : res_obj := MkRes 200 ∅.

Inductive event : Type :=
| EvFetch (rq : outbound)
| EvJson
| EvStore (variable : string) (v : value)
| EvSend (code : Z) (hs : gmap string string) (body : payload).

Record state : Type := MkState {
  wooApiNonce : option string;
  cachedExchangeRates : value;
  lastFetchTime : Z;
  res : res_obj;
  ticks : nat;
  fetches : nat;
  trace : list event;
}.

Definition log (ev : event) (s : state) : state :=
  MkState (wooApiNonce s) (cachedExchangeRates s) (lastFetchTime s) (res s)
          (ticks s) (fetches s) (trace s ++ [ev]).

Definition with_res (r : res_obj) (s : state) : state :=
  MkState (wooApiNonce s) (cachedExchangeRates s) (lastFetchTime s) r
          (ticks s) (fetches s) (trace s).

(** ** The monad: completions of a function body *)

Inductive completion (A : Type) : Type :=
| Normal (a : A)
| Returned (v : value)
| Thrown (e : exn).
Arguments Normal {A} a.
Arguments Returned {A} v.
Arguments Thrown {A} e.

Definition M (A : Type) : Type := world -> state -> completion A * state.

Definition ret {A} (a : A) : M A := fun _ s => (Normal a, s).

Definition bind {A B} (m : M A) (f : A -> M B) : M B :=
  fun w s =>
    match m w s with
    | (Normal a, s') => f a w s'
    | (Returned v, s') => (Returned v, s')
    | (Thrown e, s') => (Thrown e, s')
    end.

Declare Scope js_scope.
Delimit Scope js_scope with js.
Notation "x <- m ;; k" := (bind m (fun x => k))
  (at level 100, m at next level, right associativity) : js_scope.
Notation "m ;; k" := (bind m (fun _ => k))
  (at level 100, right associativity) : js_scope.
Open Scope js_scope.

(** [return v;] and [throw e;] *)
Definition return_ {A} (v : value) : M A := fun _ s => (Returned v, s).
Definition throw {A} (e : exn) : M A := fun _ s => (Thrown e, s).

(** [try { body } catch (error) { handler error }] *)
Definition try_catch {A} (body : M A) (handler : exn -> M A) : M A :=
  fun w s =>
    match body w s with
    | (Thrown e, s') => handler e w s'
    | other => other
    end.

(** Calling a function whose body is [body]: falling off the end gives
    [undefined]. *)
Definition call (body : M unit) : M value :=
  fun w s =>
    match body w s with
    | (Normal _, s') => (Normal VUndefined, s')
    | (Returned v, s') => (Normal v, s')
    | (Thrown e, s') => (Thrown e, s')
    end.

(** An expression that yields a value or throws. *)
Definition lift {A} (x : exn + A) : M A :=
  match x with
  | inl e => throw e
  | inr a => ret a
  end.

Definition gets {A} (f : state -> A) : M A := fun _ s => (Normal (f s), s).

(** [Date.now()] *)
Definition Date_now : M Z :=
  fun w s =>
    (Normal (clock w (ticks s)),
     MkState (wooApiNonce s) (cachedExchangeRates s) (lastFetchTime s) (res s)
             (S (ticks s)) (fetches s) (trace s)).

(** [await fetch(url, opts)] *)
Definition fetch (rq : outbound) : M response :=
  fun w s =>
    let s' :=
      MkState (wooApiNonce s) (cachedExchangeRates s) (lastFetchTime s) (res s)
              (ticks s) (S (fetches s)) (trace s ++ [EvFetch rq]) in
    match net w (fetches s) with
    | inl e => (Thrown e, s')
    | inr r => (Normal r, s')
    end.

(** [await response.json()] *)
Definition response_json (r : response) : M value :=
  fun _ s =>
    match json r with
    | inl e => (Thrown e, log EvJson s)
    | inr v => (Normal v, log EvJson s)
    end.

(** Assignments to the module-level variables. *)
Definition set_wooApiNonce (n : string) : M unit :=
  fun _ s =>
    (Normal tt,
     log (EvStore "wooApiNonce" (VStr n))
       (MkState (Some n) (cachedExchangeRates s) (lastFetchTime s) (res s)
                (ticks s) (fetches s) (trace s))).

Definition set_cachedExchangeRates (v : value) : M unit :=
  fun _ s =>
    (Normal tt,
     log (EvStore "cachedExchangeRates" v)
       (MkState (wooApiNonce s) v (lastFetchTime s) (res s)
                (ticks s) (fetches s) (trace s))).

Definition set_lastFetchTime (t : Z) : M unit :=
  fun _ s =>
    (Normal tt,
     log (EvStore "lastFetchTime" (VNum (inject_Z t)))
       (MkState (wooApiNonce s) (cachedExchangeRates s) t (res s)
                (ticks s) (fetches s) (trace s))).

(** [res.setHeader(name, v)], [res.status(code)], [res.json(v)],
    [res.send()] *)
Definition res_setHeader (name v : string) : M unit :=
  fun _ s =>
    (Normal tt,
     with_res (MkRes (statusCode (res s)) (<[name := v]> (res_headers (res s)))) s).

Definition res_status (code : Z) : M unit :=
  fun _ s => (Normal tt, with_res (MkRes code (res_headers (res s))) s).

Definition res_json (v : value) : M unit :=
  fun _ s =>
    (Normal tt,
     log (EvSend (statusCode (res s)) (res_headers (res s)) (JsonBody v)) s).

Definition res_send : M unit :=
  fun _ s =>
    (Normal tt, log (EvSend (statusCode (res s)) (res_headers (res s)) NoBody) s).

(** Express hands each request a response object of its own. *)
Definition serve (handler : request -> M unit) (req : request) : M value :=
  fun w s => call (handler req) w (with_res fresh_res s).

(** ** Start-up: the basic-auth credential *)

Definition base64_alphabet : list ascii :=
  String.list_ascii_of_string
    "ABCDEFGHIJKLMNOPQRSTUVWXYZabcdefghijklmnopqrstuvwxyz0123456789+/".

Definition base64_digit (n : N) : ascii :=
  nth (N.to_nat n) base64_alphabet "="%char.

Fixpoint base64_bytes (bs : list N) : string :=
  match bs with
  | [] => ""
  | [a] =>
      String (base64_digit (N.shiftr a 2))
        (String (base64_digit (N.shiftl (N.land a 3) 4)) "==")
  | [a; b] =>
      String (base64_digit (N.shiftr a 2))
        (String (base64_digit (N.lor (N.shiftl (N.land a 3) 4) (N.shiftr b 4)))
           (String (base64_digit (N.shiftl (N.land b 15) 2)) "="))
  | a :: b :: c :: rest =>
      String (base64_digit (N.shiftr a 2))
        (String (base64_digit (N.lor (N.shiftl (N.land a 3) 4) (N.shiftr b 4)))
           (String (base64_digit (N.lor (N.shiftl (N.land b 15) 2) (N.shiftr c 6)))
              (String (base64_digit (N.land c 63)) (base64_bytes rest))))
  end.

(** [Buffer.from(s).toString('base64')]; a [string] is its UTF-8 bytes. *)
Definition base64 (s : string) : string :=
  base64_bytes (map N_of_ascii (String.list_ascii_of_string s)).

(** [wooAuth]: computed once at start-up, [null] unless both halves of the
    key pair are set. *)
Definition wooAuth (cfg : config) : option string :=
  match as_truthy (WOO_CONSUMER_KEY cfg), as_truthy (WOO_CONSUMER_SECRET cfg) with
  | Some k, Some sec => Some (base64 (k +:+ ":" +:+ sec))
  | _, _ => None
  end.

Definition USER_AGENT_STRING : string := "54Autoworks-NodeJS-Proxy/1.0".

(** [`${x}`] for an environment variable: a string or [undefined]. *)
Definition interpolate (o : option string) : string := default "undefined" o.

(** [const { k } = req.body] *)
Definition destructure (v : value) (k : string) : exn + value :=
  match v with
  | VUndefined =>
      inl (MkExn TypeError
             ("Cannot destructure property '" +:+ k
                +:+ "' of 'req.body' as it is undefined."))
  | VNull =>
      inl (MkExn TypeError
             ("Cannot destructure property '" +:+ k
                +:+ "' of 'req.body' as it is null."))
  | VObj fields => inr (assoc k fields)
  | _ => inr VUndefined
  end.

(** The headers every cart call starts from. *)
Definition base_headers : gmap string string :=
  <["User-Agent" := USER_AGENT_STRING]>
    (<["Content-Type" := "application/json"]> ∅).

Definition add_header (name : string) (o : option string)
    (hs : gmap string string) : gmap string string :=
  match as_truthy o with
  | Some v => <[name := v]> hs
  | None => hs
  end.

(** ** ToString, and the handlers shared by the two files *)

Section Handlers.

(** Number::toString of the language runtime. *)
Variable Number_toString : Q -> string.

Variable cfg : config.

Definition cannot_convert : exn :=
  MkExn TypeError "Cannot convert object to primitive value".

(** ToString of a parsed JSON value: an object that carries an own
    [toString] property (never callable in parsed JSON) cannot be
    converted; an array joins its elements, [null] and [undefined] giving
    the empty string. *)
Fixpoint ToString (v : value) : exn + string :=
  match v with
  | VUndefined => inr "undefined"
  | VNull => inr "null"
  | VBool true => inr "true"
  | VBool false => inr "false"
  | VNum q => inr (Number_toString q)
  | VStr s => inr s
  | VArr xs =>
      (fix join (first : bool) (l : list value) : exn + string :=
         match l with
         | [] => inr ""
         | x :: l' =>
             match (match x with
                    | VUndefined | VNull => inr ""
                    | _ => ToString x
                    end), join false l' with
             | inl e, _ => inl e
             | inr _, inl e => inl e
             | inr s, inr t => inr ((if first then "" else ",") +:+ s +:+ t)
             end
         end) true xs
  | VObj fields =>
      match assoc "toString" fields with
      | VUndefined => inr "[object Object]"
      | _ => inl cannot_convert
      end
  end.

(** [GET /api/init] *)
Definition api_init (req : request) : M unit :=
  let headers := base_headers in
  let clientCartToken := req_headers req !! "cart-token" in
  let headers := add_header "Cart-Token" clientCartToken headers in
  try_catch
    (let targetUrl := interpolate (WOO_API_URL cfg) +:+ "/cart" in
     response <- fetch (MkOutbound targetUrl "GET" headers None) ;;
     let newWooSessionToken := resp_headers response !! "woocommerce-session" in
     match as_truthy newWooSessionToken with
     | Some tok => res_setHeader "Cart-Token" tok
     | None => ret tt
     end ;;
     let nonceFromHeader := resp_headers response !! "nonce" in
     match as_truthy nonceFromHeader with
     | Some n => set_wooApiNonce n
     | None => ret tt
     end ;;
     data <- response_json response ;;
     (if negb (ok response) then
        res_status (status response) ;;
        msg <- lift (get_prop data "message") ;;
        res_json
          (VObj [("message",
                  js_or msg (VStr "Failed to initialize session from WooCommerce"));
                 ("details", data)]) ;;
        return_ VUndefined
      else ret tt) ;;
     res_json
       (VObj [("cart", data);
              ("cartToken",
               js_or (or_null newWooSessionToken) (or_undefined clientCartToken))]))
    (fun error =>
       res_status 500 ;;
       res_json
         (VObj [("message", VStr "Failed to initialize session.");
                ("details", VStr (message error))])).

(** [GET /api/products] *)
Definition api_products (req : request) : M unit :=
  try_catch
    (let targetUrl := interpolate (WOO_API_URL cfg) +:+ "/products?per_page=100" in
     response <-
       fetch (MkOutbound targetUrl "GET" (<["User-Agent" := USER_AGENT_STRING]> ∅) None) ;;
     data <- response_json response ;;
     (if negb (ok response) then
        msg <- lift (get_prop data "message") ;;
        text <- lift (ToString (js_or msg (VStr "Failed to fetch products"))) ;;
        throw (MkExn Error text)
      else ret tt) ;;
     res_json data)
    (fun error =>
       res_status 500 ;;
       res_json
         (VObj [("message", VStr "Failed to fetch products.");
                ("details", VStr (message error))])).

(** [POST /api/cart/add] *)
Definition api_cart_add (req : request) : M unit :=
  productId <- lift (destructure (req_body req) "productId") ;;
  quantity <- lift (destructure (req_body req) "quantity") ;;
  let clientCartToken := req_headers req !! "cart-token" in
  lift (ToString productId) ;;
  lift (ToString quantity) ;;
  let headers := base_headers in
  let headers := add_header "Cart-Token" clientCartToken headers in
  nonce <- gets wooApiNonce ;;
  let headers := add_header "Nonce" nonce headers in
  try_catch
    (let targetUrl := interpolate (WOO_API_URL cfg) +:+ "/cart/add-item" in
     response <-
       fetch (MkOutbound targetUrl "POST" headers
                (Some (VObj [("id", productId); ("quantity", quantity)]))) ;;
     let newWooSessionToken := resp_headers response !! "woocommerce-session" in
     match as_truthy newWooSessionToken with
     | Some tok => res_setHeader "Cart-Token" tok
     | None => ret tt
     end ;;
     data <- response_json response ;;
     (if negb (ok response) then
        res_status (status response) ;;
        msg <- lift (get_prop data "message") ;;
        res_json
          (VObj [("message", js_or msg (VStr "Failed to add to cart"));
                 ("details", data)]) ;;
        return_ VUndefined
      else ret tt) ;;
     res_status (status response) ;;
     res_json data)
    (fun error =>
       res_status 500 ;;
       res_json
         (VObj [("error", VStr "Failed to add item to cart.");
                ("details", VStr (message error))])).

(** [POST /api/cart/update-item] *)
Definition api_cart_update_item (req : request) : M unit :=
  key <- lift (destructure (req_body req) "key") ;;
  quantity <- lift (destructure (req_body req) "quantity") ;;
  let clientCartToken := req_headers req !! "cart-token" in
  lift (ToString key) ;;
  lift (ToString quantity) ;;
  let headers := base_headers in
  let headers := add_header "Cart-Token" clientCartToken headers in
  nonce <- gets wooApiNonce ;;
  let headers := add_header "Nonce" nonce headers in
  try_catch
    (let targetUrl := interpolate (WOO_API_URL cfg) +:+ "/cart/update-item" in
     response <-
       fetch (MkOutbound targetUrl "POST" headers
                (Some (VObj [("key", key); ("quantity", quantity)]))) ;;
     let newWooSessionToken := resp_headers response !! "woocommerce-session" in
     match as_truthy newWooSessionToken with
     | Some tok => res_setHeader "Cart-Token" tok
     | None => ret tt
     end ;;
     data <- response_json response ;;
     (if negb (ok response) then
        res_status (status response) ;;
        msg <- lift (get_prop data "message") ;;
        res_json
          (VObj [("message", js_or msg (VStr "Failed to update item quantity"));
                 ("details", data)]) ;;
        return_ VUndefined
      else ret tt) ;;
     res_status (status response) ;;
     res_json data)
    (fun error =>
       res_status 500 ;;
       res_json (VObj [("error", VStr "Failed to update item quantity in cart.")])).

(** [GET /api/cart] *)
Definition api_cart (req : request) : M unit :=
  let headers := base_headers in
  let clientCartToken := req_headers req !! "cart-token" in
  let headers := add_header "Cart-Token" clientCartToken headers in
  try_catch
    (let targetUrl := interpolate (WOO_API_URL cfg) +:+ "/cart" in
     response <- fetch (MkOutbound targetUrl "GET" headers None) ;;
     let newWooSessionToken := resp_headers response !! "woocommerce-session" in
     match as_truthy newWooSessionToken with
     | Some tok => res_setHeader "Cart-Token" tok
     | None => ret tt
     end ;;
     data <- response_json response ;;
     (if negb (ok response) then
        res_status (status response) ;;
        msg <- lift (get_prop data "message") ;;
        res_json
          (VObj [("message", js_or msg (VStr "Failed to fetch cart"));
                 ("details", data)]) ;;
        return_ VUndefined
      else ret tt) ;;
     res_json
       (VObj [("cart", data);
              ("cartToken",
               js_or (or_null newWooSessionToken) (or_undefined clientCartToken))]))
    (fun error =>
       res_status 500 ;;
       res_json
         (VObj [("message", VStr "Failed to fetch cart.");
                ("details", VStr (message error))])).

End Handlers.

(** The endpoints of the listener. *)
Inductive endpoint : Type :=
| GET_init
| GET_exchange_rates
| GET_products
| POST_cart_add
| POST_cart_update_item
| POST_cart_remove_item
| GET_cart.

(** [{ USD: 1, ZAR: 19.00 }] *)
Definition hardcoded_rates : value :=
  VObj [("USD", VNum (inject_Z 1)); ("ZAR", VNum (inject_Z 19))].

(** ** [src/server.js] *)

Module ServerJs.
Section File.

Variable Number_toString : Q -> string.
Variable cfg : config.

(** The module-level variables once the file is loaded:
    [lastFetchTime = Date.now()] takes the first reading of the clock. *)
Definition loaded (w : world) : state :=
  MkState None hardcoded_rates (clock w 0%nat) fresh_res 1 0 [].

Definition fetchExchangeRates : M value :=
  call
    (cached <- gets cachedExchangeRates ;;
     return_ cached).

(** [GET /api/exchange-rates] *)
Definition api_exchange_rates (req : request) : M unit :=
  rates <- fetchExchangeRates ;;
  res_json rates.

(** [POST /api/cart/remove-item] *)
Definition api_cart_remove_item (req : request) : M unit :=
  key <- lift (destructure (req_body req) "key") ;;
  let clientCartToken := req_headers req !! "cart-token" in
  lift (ToString Number_toString key) ;;
  let headers := base_headers in
  let headers := add_header "Cart-Token" clientCartToken headers in
  nonce <- gets wooApiNonce ;;
  let headers := add_header "Nonce" nonce headers in
  try_catch
    (let targetUrl := interpolate (WOO_API_URL cfg) +:+ "/cart/remove-item" in
     response <-
       fetch (MkOutbound targetUrl "POST" headers (Some (VObj [("key", key)]))) ;;
     let newWooSessionToken := resp_headers response !! "woocommerce-session" in
     match as_truthy newWooSessionToken with
     | Some tok => res_setHeader "Cart-Token" tok
     | None => ret tt
     end ;;
     (if status response =? 204 then
        res_status 204 ;;
        res_send ;;
        return_ VUndefined
      else ret tt) ;;
     let data := VObj [] in
     data <-
       (if negb (status response =? 204) then
          try_catch
            (response_json response)
            (fun jsonError =>
               if negb (ok response) then
                 throw (MkExn Error
                          ("Store API remove failed with status "
                             +:+ pretty (status response)))
               else ret data)
        else ret data) ;;
     res_status (status response) ;;
     res_json data)
    (fun error =>
       res_status 500 ;;
       res_json
         (VObj [("error", VStr "Failed to remove item.");
                ("details", VStr (message error))])) ;;
  lift (ToString Number_toString key) ;;
  ret tt.

Definition route (e : endpoint) : request -> M unit :=
  match e with
  | GET_init => api_init cfg
  | GET_exchange_rates => api_exchange_rates
  | GET_products => api_products Number_toString cfg
  | POST_cart_add => api_cart_add Number_toString cfg
  | POST_cart_update_item => api_cart_update_item Number_toString cfg
  | POST_cart_remove_item => api_cart_remove_item
  | GET_cart => api_cart cfg
  end.

End File.
End ServerJs.

(** ** [src/unnamed/part_000] *)

Module Part000.
Section File.

Variable Number_toString : Q -> string.
Variable cfg : config.

Definition CACHE_DURATION : Z := 3600 * 1000.

(** The module-level variables once the file is loaded. *)
Definition loaded : state := MkState None VNull 0 fresh_res 0 0 [].

Definition fetchExchangeRates : M value :=
  call
    (now <- Date_now ;;
     last <- gets lastFetchTime ;;
     cached <- gets cachedExchangeRates ;;
     (if (now - last <? CACHE_DURATION) && truthy cached
      then return_ cached else ret tt) ;;
     match as_truthy (EXCHANGE_RATE_API_KEY cfg) with
     | None => return_ hardcoded_rates
     | Some api_key =>
         let BASE_CURRENCY := "USD" in
         let API_URL :=
           "https://v6.exchangerate-api.com/v6/" +:+ api_key +:+ "/latest/"
             +:+ BASE_CURRENCY in
         try_catch
           (response <- fetch (MkOutbound API_URL "GET" ∅ None) ;;
            data <- response_json response ;;
            accepted <-
              (if ok response then
                 result <- lift (get_prop data "result") ;;
                 if strict_eq_str result "success" then
                   conversion_rates <- lift (get_prop data "conversion_rates") ;;
                   ret (truthy conversion_rates)
                 else ret false
               else ret false) ;;
            if accepted : bool then
              conversion_rates <- lift (get_prop data "conversion_rates") ;;
              USD <- lift (get_prop conversion_rates "USD") ;;
              ZAR <- lift (get_prop conversion_rates "ZAR") ;;
              set_cachedExchangeRates (VObj [("USD", USD); ("ZAR", ZAR)]) ;;
              now' <- Date_now ;;
              set_lastFetchTime now' ;;
              cached' <- gets cachedExchangeRates ;;
              return_ cached'
            else
              result <- lift (get_prop data "result") ;;
              (if truthy result then ret tt
               else _ <- lift (get_prop data "error_type") ;; ret tt) ;;
              return_ hardcoded_rates)
           (fun error => return_ hardcoded_rates)
     end).

(** [GET /api/exchange-rates] *)
Definition api_exchange_rates (req : request) : M unit :=
  rates <- fetchExchangeRates ;;
  res_json rates.

(** The callback of [app.listen] fetches the rates once. *)
Definition listening (w : world) : state := snd (fetchExchangeRates w loaded).

(** [POST /api/cart/remove-item].  [wooCartToken], [localStorage],
    [fetchAndDisplayCart], [showCartError] and [itemKey] are declared
    nowhere in the file and are no globals of Node: evaluating any of
    them throws a [ReferenceError]. *)
Definition api_cart_remove_item (req : request) : M unit :=
  key <- lift (destructure (req_body req) "key") ;;
  let clientCartToken := req_headers req !! "cart-token" in
  lift (ToString Number_toString key) ;;
  let headers := base_headers in
  let headers := add_header "Cart-Token" clientCartToken headers in
  nonce <- gets wooApiNonce ;;
  let headers := add_header "Nonce" nonce headers in
  try_catch
    (let targetUrl := interpolate (WOO_API_URL cfg) +:+ "/cart/remove-item" in
     response <-
       fetch (MkOutbound targetUrl "POST" headers (Some (VObj [("key", key)]))) ;;
     let newWooSessionToken := resp_headers response !! "woocommerce-session" in
     match as_truthy newWooSessionToken with
     | Some tok => res_setHeader "Cart-Token" tok
     | None => ret tt
     end ;;
     (if status response =? 204 then
        res_status 204 ;;
        res_send ;;
        return_ VUndefined
      else ret tt) ;;
     let data := VObj [] in
     data <-
       (if negb (status response =? 204) then
          try_catch
            (response_json response)
            (fun jsonError =>
               if negb (ok response) then
                 throw (MkExn Error
                          ("Store API remove failed with status "
                             +:+ pretty (status response)))
               else ret data)
        else ret data) ;;
     cartToken <- lift (get_prop data "cartToken") ;;
     (if truthy cartToken then
        (* data.cartToken !== wooCartToken *)
        throw (not_defined "wooCartToken")
      else ret tt) ;;
     (* await fetchAndDisplayCart() *)
     (throw (not_defined "fetchAndDisplayCart") : M unit))
    (fun error =>
       (* showCartError(...) *)
       throw (not_defined "showCartError")) ;;
  (* `removeItem finished for item ${itemKey}` *)
  throw (not_defined "itemKey").

Definition route (e : endpoint) : request -> M unit :=
  match e with
  | GET_init => api_init cfg
  | GET_exchange_rates => api_exchange_rates
  | GET_products => api_products Number_toString cfg
  | POST_cart_add => api_cart_add Number_toString cfg
  | POST_cart_update_item => api_cart_update_item Number_toString cfg
  | POST_cart_remove_item => api_cart_remove_item
  | GET_cart => api_cart cfg
  end.

End File.
End Part000.

(** ** The CORS middleware of [src/server.js] *)

Definition allowedFrontendOrigin : string :=
  "https://five4autoworks-frontend.onrender.com".

(** How a middleware ends: [res.sendStatus(code)] or [next()].  The trace
    has no event for the text body of [sendStatus]; the decision is the
    result of the middleware. *)
Inductive middleware_result : Type :=
| Ended (code : Z)
| Next.

(** [app.use((req, res, next) => ...)]; [method] is [req.method]. *)
Definition cors_middleware (method : string) (req : request) : M middleware_result :=
  let origin := req_headers req !! "origin" in
  match origin with
  | Some o =>
      if String.eqb o allowedFrontendOrigin then
        res_setHeader "Access-Control-Allow-Origin" o ;;
        res_setHeader "Access-Control-Allow-Credentials" "true"
      else ret tt
  | None => ret tt
  end ;;
  res_setHeader "Access-Control-Allow-Methods" "GET, POST, PUT, DELETE, OPTIONS" ;;
  res_setHeader "Access-Control-Allow-Headers"
    "Content-Type, Authorization, Cart-Token, woocommerce-session" ;;
  if String.eqb method "OPTIONS" then ret (Ended 200) else ret Next.

(** A request through the middleware and, if it calls [next()], through
    the handler its route selects, on the response object of the request. *)
Definition behind_cors (method : string) (handler : request -> M unit)
    (req : request) : M middleware_result :=
  fun w s =>
    (decision <- cors_middleware method req ;;
     match decision with
     | Next => call (handler req) ;; ret Next
     | Ended code => ret (Ended code)
     end) w (with_res fresh_res s).

(** ** Running a sequence of requests *)

(** The example printer: Number::toString on integers. *)
Definition integer_toString (q : Q) : string := pretty (Qnum q).

Fixpoint run_requests (route : endpoint -> request -> M unit)
    (rs : list (endpoint * request)) (w : world) (s : state) : state :=
  match rs with
  | [] => s
  | (e, req) :: rest => run_requests route rest w (snd (serve (route e) req w s))
  end.

(** What a computation appended to the trace. *)
Definition events_since (s s' : state) : list event :=
  drop (length (trace s)) (trace s').

Definition fetched (evs : list event) : list outbound :=
  omap (fun ev => match ev with EvFetch rq => Some rq | _ => None end) evs.

Definition parse_attempts (evs : list event) : nat :=
  length (omap (fun ev => match ev with EvJson => Some tt | _ => None end) evs).

Definition stores (evs : list event) : list (string * value) :=
  omap (fun ev => match ev with EvStore x v => Some (x, v) | _ => None end) evs.

Definition sent (evs : list event) : list (Z * gmap string string * payload) :=
  omap (fun ev => match ev with EvSend c hs b => Some (c, hs, b) | _ => None end) evs.

(** * Vocabulary of the properties *)

(** ** Frames and traces *)

(** A computation leaves the component [f] of the state as it was. *)
Definition keeps {A B} (f : state -> B) (m : M A) : Prop :=
  forall w s, f (snd (m w s)) = f s.

(** The three module-level variables, and the two of the rate cache. *)
Definition globals (s : state) : option string * value * Z :=
  (wooApiNonce s, cachedExchangeRates s, lastFetchTime s).

Definition rates_cache (s : state) : value * Z :=
  (cachedExchangeRates s, lastFetchTime s).

(** Every event a computation appends to the trace satisfies [Q]. *)
Definition appends {A} (Q : event -> Prop) (m : M A) : Prop :=
  forall w s, exists evs, trace (snd (m w s)) = trace s ++ evs /\ Forall Q evs.

(** ** The exchange-rate cache of [src/unnamed/part_000] *)

(** The state after one more reading of the clock. *)
Definition tick (s : state) : state :=
  MkState (wooApiNonce s) (cachedExchangeRates s) (lastFetchTime s) (res s)
          (S (ticks s)) (fetches s) (trace s).

(** The request [fetch(API_URL)] sends. *)
Definition rate_request (api_key : string) : outbound :=
  MkOutbound
    ("https://v6.exchangerate-api.com/v6/" +:+ api_key +:+ "/latest/" +:+ "USD")
    "GET" ∅ None.

(** The cached pair is served: it is there and younger than the window. *)
Definition cache_fresh (w : world) (s : state) : Prop :=
  clock w (ticks s) - lastFetchTime s < Part000.CACHE_DURATION /\
  truthy (cachedExchangeRates s) = true.

(** A reply of the rate service that the code accepts, and the pair it
    takes from it. *)
Inductive accepted_reply (r : response) : value -> Prop :=
| reply_accepted data rates usd zar :
    ok r = true ->
    json r = inr data ->
    get_prop data "result" = inr (VStr "success") ->
    get_prop data "conversion_rates" = inr rates ->
    truthy rates = true ->
    get_prop rates "USD" = inr usd ->
    get_prop rates "ZAR" = inr zar ->
    accepted_reply r (VObj [("USD", usd); ("ZAR", zar)]).

(** The replies it does not accept: a non-success status, a body that is
    not JSON, a [result] other than ['success'] (or none to read), no
    [conversion_rates]. *)
Inductive rejected_reply (r : response) : Prop :=
| reply_non_success : ok r = false -> rejected_reply r
| reply_unparsable e : json r = inl e -> rejected_reply r
| reply_no_success data :
    json r = inr data -> get_prop data "result" <> inr (VStr "success") ->
    rejected_reply r
| reply_no_rates data rates :
    json r = inr data -> get_prop data "conversion_rates" = inr rates ->
    truthy rates = false -> rejected_reply r.

(** The failure paths of [fetchExchangeRates]. *)
Inductive failure_path (cfg : config) (w : world) (s : state) : Prop :=
| missing_api_key :
    as_truthy (EXCHANGE_RATE_API_KEY cfg) = None -> failure_path cfg w s
| fetch_threw api_key e :
    as_truthy (EXCHANGE_RATE_API_KEY cfg) = Some api_key ->
    net w (fetches s) = inl e -> failure_path cfg w s
| reply_rejected api_key r :
    as_truthy (EXCHANGE_RATE_API_KEY cfg) = Some api_key ->
    net w (fetches s) = inr r -> rejected_reply r -> failure_path cfg w s.

(** ** The relay handlers *)

(** The upstream call of [GET /api/init] and [GET /api/cart] for a client
    that sent no token. *)
Definition cart_request_without_token (cfg : config) : outbound :=
  MkOutbound (interpolate (WOO_API_URL cfg) +:+ "/cart") "GET" base_headers None.

(** The fields of [req.body] a POST handler reads and prints before its
    upstream call: each can be read and converted to a string, so that the
    handler reaches the call. *)
Definition readable (Number_toString : Q -> string) (body : value)
    (names : list string) : Prop :=
  Forall (fun k => exists x text,
            destructure body k = inr x /\ ToString Number_toString x = inr text)
         names.

(** The body of an error relay: the upstream message, or the handler's
    own text when the payload has none, and the upstream payload. *)
Definition relayed_error (msg : value) (fallback : string) (data : value) : value :=
  VObj [("message", js_or msg (VStr fallback)); ("details", data)].

(** A response with status 500 whose body carries [text] as [details]. *)
Definition answers_500_with (text : string) (evs : list event) : Prop :=
  exists hs first,
    sent evs = [(500, hs, JsonBody (VObj [first; ("details", VStr text)]))].

(** The header names an outbound call can carry. *)
Definition allowed_headers : gset string :=
  {[ "Content-Type"; "User-Agent"; "Cart-Token"; "Nonce" ]}.

(** An outbound call carries allowed headers only. *)
Definition no_credentials (ev : event) : Prop :=
  match ev with
  | EvFetch rq => dom (out_headers rq) ⊆ allowed_headers
  | _ => True
  end.

(** ** Further vocabulary *)

(** The headers the middleware of [src/server.js] puts on a response for
    a request of the given origin. *)
Definition cors_headers (origin : option string) (hs : gmap string string) : Prop :=
  hs !! "Access-Control-Allow-Methods" = Some "GET, POST, PUT, DELETE, OPTIONS" /\
  hs !! "Access-Control-Allow-Headers"
    = Some "Content-Type, Authorization, Cart-Token, woocommerce-session" /\
  (origin = Some allowedFrontendOrigin ->
   hs !! "Access-Control-Allow-Origin" = Some allowedFrontendOrigin /\
   hs !! "Access-Control-Allow-Credentials" = Some "true") /\
  (origin <> Some allowedFrontendOrigin ->
   hs !! "Access-Control-Allow-Origin" = None /\
   hs !! "Access-Control-Allow-Credentials" = None).

(** Every response a computation sends has headers that satisfy [P], and
    the headers of the response object keep satisfying it. *)
Definition sends_with (P : gmap string string -> Prop) (ev : event) : Prop :=
  match ev with
  | EvSend _ hs _ => P hs
  | _ => True
  end.

Definition header_inv {A} (P : gmap string string -> Prop) (m : M A) : Prop :=
  forall w s,
    P (res_headers (res s)) ->
    P (res_headers (res (snd (m w s)))) /\
    exists evs, trace (snd (m w s)) = trace s ++ evs /\ Forall (sends_with P) evs.

(** The client's token travels with an outbound call; so does the nonce
    the slot held when the handler started. *)
Definition forwards_token (req : request) (rq : outbound) : Prop :=
  out_headers rq !! "Cart-Token" = as_truthy (req_headers req !! "cart-token").

Definition carries_nonce (slot : option string) (rq : outbound) : Prop :=
  out_headers rq !! "Nonce" = as_truthy slot.

(** The session headers of a cart-mutating call. *)
Definition session_headers (req : request) (s : state) : gmap string string :=
  add_header "Nonce" (wooApiNonce s)
    (add_header "Cart-Token" (req_headers req !! "cart-token") base_headers).

(** The fields of [req.body] the handler of an endpoint reads. *)
Definition body_fields (e : endpoint) : list string :=
  match e with
  | POST_cart_add => ["productId"; "quantity"]
  | POST_cart_update_item => ["key"; "quantity"]
  | POST_cart_remove_item => ["key"]
  | _ => []
  end.

(** The shapes the cache variable takes: [null], or a pair of rates. *)
Definition rate_pair_or_null (v : value) : Prop :=
  v = VNull \/ exists usd zar, v = VObj [("USD", usd); ("ZAR", zar)].

(** The nonce slot after some activity: as it was, or a non-empty nonce. *)
Definition nonce_kept_or_renewed (before after : option string) : Prop :=
  after = before \/ exists n, n <> "" /\ after = Some n.

(** ** Concrete inputs *)

Definition demo_cfg : config :=
  MkConfig (Some "https://shop.example/wp-json/wc/store/v1")
           (Some "ck_live") (Some "cs_live") (Some "rate-key").

Definition demo_cfg_without_rate_key : config :=
  MkConfig (Some "https://shop.example/wp-json/wc/store/v1")
           (Some "ck_live") (Some "cs_live") None.

(** A request with no headers and an empty JSON body, and one that names
    a cart item. *)
Definition bare_request : request := MkRequest ∅ (VObj []).

Definition remove_request : request :=
  MkRequest ∅ (VObj [("key", VStr "item-7")]).

(** Upstream answers. *)
Definition session_reply : response :=
  MkResponse 200
    (<["nonce" := "n-1"]> (<["woocommerce-session" := "tok-1"]> ∅))
    (inr (VObj [("items", VArr [])])).

Definition not_found_reply : response :=
  MkResponse 404 ∅ (inr (VObj [("message", VStr "Not found")])).

Definition no_content_reply : response :=
  MkResponse 204 (<["woocommerce-session" := "tok-2"]> ∅)
    (inl (MkExn FetchError "invalid json response body")).

Definition garbled_reply : response :=
  MkResponse 200 ∅ (inl (MkExn SyntaxError "Unexpected token < in JSON at position 0")).

Definition rates_reply (zar : Q) : response :=
  MkResponse 200 ∅
    (inr (VObj [("result", VStr "success");
                ("conversion_rates",
                 VObj [("USD", VNum (inject_Z 1)); ("ZAR", VNum zar)])])).

Definition rates_pair (zar : Q) : value :=
  VObj [("USD", VNum (inject_Z 1)); ("ZAR", VNum zar)].

(** A world whose upstream always gives the same answer. *)
Definition always (r : response) : world :=
  MkWorld (fun k => 1700000000000 + Z.of_nat k) (fun _ => inr r).

(** The rate service gives 18.50, then 18.75; the clock reads start-up,
    half a second later, one second later, and then two hours later. *)
Definition rate_world : world :=
  MkWorld
    (fun k => match k with
              | 0%nat => 1700000000000
              | 1%nat => 1700000000500
              | 2%nat => 1700000001000
              | _ => 1700007200000
              end)
    (fun k => match k with
              | 0%nat => inr (rates_reply (1850 # 100)%Q)
              | _ => inr (rates_reply (1875 # 100)%Q)
              end).

(** A world whose network is down. *)
Definition offline : world :=
  MkWorld (fun k => 1700000000000 + Z.of_nat k)
          (fun _ => inl (MkExn FetchError "connect ECONNREFUSED")).

(** The rate service is unreachable two hours and more after a fetch. *)
Definition late_offline : world :=
  MkWorld (fun _ => 1700007200000)
          (fun _ => inl (MkExn FetchError "connect ECONNREFUSED")).

(** Two hours after the module was loaded every reading of the clock is
    past the cache window, and the rate service delivers a pair. *)
Definition two_hours_later : world :=
  MkWorld (fun k => match k with O => 1700000000000 | S _ => 1700007200000 end)
          (fun _ => inr (rates_reply (1875 # 100)%Q)).

(** Requests of a client that holds a token, and a request to add to the
    cart. *)
Definition token_request : request :=
  MkRequest (<["cart-token" := "tok-9"]> ∅) (VObj []).

Definition add_request : request :=
  MkRequest (<["cart-token" := "tok-9"]> ∅)
    (VObj [("productId", VNum (inject_Z 42)); ("quantity", VNum (inject_Z 2))]).

(** A request from the allowed front end. *)
Definition frontend_request : request :=
  MkRequest (<["origin" := allowedFrontendOrigin]> ∅) (VObj []).

(** More upstream answers. *)
Definition tokenless_reply : response :=
  MkResponse 200 ∅ (inr (VObj [("items", VArr [])])).

Definition created_reply : response :=
  MkResponse 201 (<["woocommerce-session" := "tok-3"]> ∅)
    (inr (VObj [("items", VArr [VObj [("id", VNum (inject_Z 42))]])])).

Definition null_error_reply : response :=
  MkResponse 502 ∅ (inr VNull).

(** * Properties *)

(** ** The model on small inputs *)

Example base64_of_credentials : base64 "user:pass" = "dXNlcjpwYXNz".
Proof. reflexivity. Qed.

Example base64_pads : base64 "a" = "YQ==" /\ base64 "ab" = "YWI=".
Proof. split; reflexivity. Qed.

Example wooAuth_needs_both_halves :
  wooAuth demo_cfg = Some "Y2tfbGl2ZTpjc19saXZl" /\
  wooAuth (MkConfig None (Some "ck_live") None None) = None /\
  wooAuth (MkConfig None (Some "ck_live") (Some "") None) = None.
Proof. repeat split. Qed.

Example ToString_joins_arrays :
  ToString integer_toString
    (VArr [VNum (inject_Z 3); VNull; VStr "x"; VArr [VBool true; VObj []]])
  = inr "3,,x,true,[object Object]".
Proof. reflexivity. Qed.

Example ToString_of_object_with_own_toString :
  ToString integer_toString (VObj [("toString", VNum (inject_Z 1))])
  = inl cannot_convert.
Proof. reflexivity. Qed.

Example empty_string_is_falsy :
  truthy (VStr "") = false /\ as_truthy (Some "") = None /\
  js_or (or_null None) (or_undefined None) = VUndefined.
Proof. repeat split. Qed.

Example status_ok : ok session_reply = true /\ ok no_content_reply = true /\
  ok not_found_reply = false.
Proof. repeat split. Qed.

(** [GET /api/init] on a fresh process: one call, the nonce stored, the
    body parsed, and the cart sent with the token. *)
Example init_on_session_reply :
  events_since Part000.loaded
    (snd (serve (api_init demo_cfg) bare_request (always session_reply)
            Part000.loaded))
  = [EvFetch (cart_request_without_token demo_cfg);
     EvStore "wooApiNonce" (VStr "n-1");
     EvJson;
     EvSend 200 (<["Cart-Token" := "tok-1"]> ∅)
       (JsonBody (VObj [("cart", VObj [("items", VArr [])]);
                        ("cartToken", VStr "tok-1")]))].
Proof. vm_compute. reflexivity. Qed.

(** The nonce captured by [GET /api/init] travels with the next
    cart-mutating call. *)
Example nonce_travels_with_remove :
  let s1 := snd (serve (api_init demo_cfg) bare_request (always session_reply)
                   Part000.loaded) in
  let s2 := snd (serve (ServerJs.api_cart_remove_item integer_toString demo_cfg)
                   remove_request (always session_reply) s1) in
  fetched (events_since s1 s2)
  = [MkOutbound "https://shop.example/wp-json/wc/store/v1/cart/remove-item" "POST"
       (<["Nonce" := "n-1"]> base_headers)
       (Some (VObj [("key", VStr "item-7")]))].
Proof. vm_compute. reflexivity. Qed.

(** An empty [woocommerce-session] header counts as no token. *)
Example empty_session_header_is_no_token :
  sent (events_since Part000.loaded
          (snd (serve (api_cart demo_cfg) bare_request
                  (always (MkResponse 200 (<["woocommerce-session" := ""]> ∅)
                             (inr (VObj []))))
                  Part000.loaded)))
  = [(200, ∅, JsonBody (VObj [("cart", VObj []); ("cartToken", VUndefined)]))].
Proof. vm_compute. reflexivity. Qed.

(** A request body that cannot be destructured ends the handler before
    any call and any response. *)
Example add_without_body :
  serve (api_cart_add integer_toString demo_cfg) (MkRequest ∅ VUndefined)
    (always session_reply) Part000.loaded
  = (Thrown (MkExn TypeError
               "Cannot destructure property 'productId' of 'req.body' as it is undefined."),
     Part000.loaded).
Proof. reflexivity. Qed.

(** Start-up of [src/unnamed/part_000] against the rate service. *)
Example listening_caches_first_rates :
  rates_cache (Part000.listening demo_cfg rate_world)
  = (rates_pair (1850 # 100)%Q, 1700000000500).
Proof. reflexivity. Qed.

(** ** Frame rules: which computations leave a component of the state alone *)

Section Frame.
Context {B : Type} (f : state -> B).

Lemma keeps_ret {A} (a : A) : keeps f (ret a).
Proof. intros w s. reflexivity. Qed.

Lemma keeps_return {A} v : keeps f (@return_ A v).
Proof. intros w s. reflexivity. Qed.

Lemma keeps_throw {A} e : keeps f (@throw A e).
Proof. intros w s. reflexivity. Qed.

Lemma keeps_lift {A} (x : exn + A) : keeps f (lift x).
Proof. destruct x; intros w s; reflexivity. Qed.

Lemma keeps_gets {A} (g : state -> A) : keeps f (gets g).
Proof. intros w s. reflexivity. Qed.

Lemma keeps_bind {A C} (m : M A) (k : A -> M C) :
  keeps f m -> (forall a, keeps f (k a)) -> keeps f (bind m k).
Proof.
  intros Hm Hk w s. unfold bind. specialize (Hm w s).
  destruct (m w s) as [[a | v | e] s1]; simpl in *; try assumption.
  rewrite <- Hm. apply Hk.
Qed.

Lemma keeps_try_catch {A} (m : M A) (h : exn -> M A) :
  keeps f m -> (forall e, keeps f (h e)) -> keeps f (try_catch m h).
Proof.
  intros Hm Hh w s. unfold try_catch. specialize (Hm w s).
  destruct (m w s) as [[a | v | e] s1]; simpl in *; try assumption.
  rewrite <- Hm. apply Hh.
Qed.

Lemma keeps_call (m : M unit) : keeps f m -> keeps f (call m).
Proof.
  intros Hm w s. unfold call. specialize (Hm w s).
  destruct (m w s) as [[a | v | e] s1]; simpl in *; assumption.
Qed.

Lemma keeps_if {A} (b : bool) (m1 m2 : M A) :
  keeps f m1 -> keeps f m2 -> keeps f (if b then m1 else m2).
Proof. destruct b; auto. Qed.

Lemma keeps_match_option {A C} (o : option C) (m1 : C -> M A) (m2 : M A) :
  (forall c, keeps f (m1 c)) -> keeps f m2 ->
  keeps f (match o with Some c => m1 c | None => m2 end).
Proof. destruct o; auto. Qed.

End Frame.

Lemma globals_fetch rq : keeps globals (fetch rq).
Proof. intros w s. unfold fetch. destruct (net w (fetches s)); reflexivity. Qed.

Lemma globals_response_json r : keeps globals (response_json r).
Proof. intros w s. unfold response_json. destruct (json r); reflexivity. Qed.

Lemma globals_Date_now : keeps globals Date_now.
Proof. intros w s. reflexivity. Qed.

Lemma globals_res_setHeader k v : keeps globals (res_setHeader k v).
Proof. intros w s. reflexivity. Qed.

Lemma globals_res_status c : keeps globals (res_status c).
Proof. intros w s. reflexivity. Qed.

Lemma globals_res_json v : keeps globals (res_json v).
Proof. intros w s. reflexivity. Qed.

Lemma globals_res_send : keeps globals res_send.
Proof. intros w s. reflexivity. Qed.

Lemma rates_cache_set_wooApiNonce n : keeps rates_cache (set_wooApiNonce n).
Proof. intros w s. reflexivity. Qed.

Lemma keeps_weaken {A B C} (f : state -> B) (g : B -> C) (m : M A) :
  keeps f m -> keeps (fun s => g (f s)) m.
Proof. intros H w s. simpl. f_equal. apply H. Qed.

Lemma globals_rates_cache {A} (m : M A) : keeps globals m -> keeps rates_cache m.
Proof.
  intros H w s. specialize (H w s). unfold globals, rates_cache in *.
  congruence.
Qed.

Lemma keeps_serve {B} (f : state -> B) (h : request -> M unit) req :
  (forall r s, f (with_res r s) = f s) ->
  keeps f (h req) -> keeps f (serve h req).
Proof.
  intros Hres Hh w s. unfold serve.
  rewrite (keeps_call f _ Hh). apply Hres.
Qed.

(** Closes a frame goal by following the structure of the computation. *)
Ltac frame :=
  repeat first
    [ apply keeps_ret | apply keeps_return | apply keeps_throw
    | apply keeps_lift | apply keeps_gets
    | apply globals_fetch | apply globals_response_json
    | apply globals_Date_now | apply globals_res_setHeader
    | apply globals_res_status | apply globals_res_json
    | apply globals_res_send | apply rates_cache_set_wooApiNonce
    | apply keeps_bind; [ | intros ]
    | apply keeps_try_catch; [ | intros ]
    | apply keeps_call
    | apply keeps_if
    | apply keeps_match_option; [ intros | ]
    | apply globals_rates_cache ].

(** ** Symbolic execution *)

(** Unfolds the monad and the effects; the state must be a constructor. *)
Ltac mred :=
  cbv beta iota zeta delta
    [ serve call bind ret return_ throw try_catch lift gets Date_now fetch
      response_json set_wooApiNonce set_cachedExchangeRates set_lastFetchTime
      res_setHeader res_status res_json res_send log with_res
      wooApiNonce cachedExchangeRates lastFetchTime res ticks fetches trace
      statusCode res_headers fresh_res fst snd ];
  cbn [andb negb orb].

Ltac open_state s :=
  destruct s as [? ? ? [? ?] ? ? ?];
  cbn [wooApiNonce cachedExchangeRates lastFetchTime res ticks fetches trace
       statusCode res_headers] in *.

(** Runs the computation as far as the hypotheses decide its branches. *)
Ltac drive :=
  mred;
  repeat (match goal with
          | H : ?l = _ |- context [?l] => rewrite H
          end; mred).

(** The same, splitting on whatever scrutinee remains undecided. *)
Ltac crunch :=
  mred;
  repeat (match goal with
          | H : ?l = _ |- context [?l] => rewrite H
          | |- context [match ?x with inl _ => _ | inr _ => _ end] =>
              destruct x eqn:?
          | |- context [match ?x with Some _ => _ | None => _ end] =>
              destruct x eqn:?
          | |- context [if ?x then _ else _] => destruct x eqn:?
          end; mred).

Lemma strict_eq_str_true a b : strict_eq_str a b = true -> a = VStr b.
Proof.
  destruct a; simpl; try discriminate.
  intros H. apply String.eqb_eq in H. congruence.
Qed.

Lemma strict_eq_str_refl s : strict_eq_str (VStr s) s = true.
Proof. apply String.eqb_refl. Qed.

Lemma as_truthy_Some o s : as_truthy o = Some s -> o = Some s /\ s <> "".
Proof.
  destruct o as [t|]; simpl; [|discriminate].
  destruct (String.eqb_spec t ""); [discriminate|].
  intros [= ->]. auto.
Qed.

Lemma as_truthy_nonempty s : s <> "" -> as_truthy (Some s) = Some s.
Proof. intros H. simpl. destruct (String.eqb_spec s ""); congruence. Qed.

Lemma truthy_nonempty s : s <> "" -> truthy (VStr s) = true.
Proof.
  intros H. cbn [truthy]. destruct (String.eqb_spec s ""); [contradiction|reflexivity].
Qed.

Lemma truthy_get_prop v k : truthy v = true -> exists x, get_prop v k = inr x.
Proof. destruct v; simpl; try discriminate; eauto. Qed.

Lemma events_since_app s s' evs :
  trace s' = trace s ++ evs -> events_since s s' = evs.
Proof. intros H. unfold events_since. rewrite H. apply drop_app_length. Qed.

Lemma events_since_refl s : events_since s s = [].
Proof. unfold events_since. apply drop_all. Qed.

(** ** [fetchExchangeRates] of [src/server.js] *)

(** The function reads [cachedExchangeRates] and does nothing else. *)
Lemma server_js_fetchExchangeRates_reads_only w s :
  ServerJs.fetchExchangeRates w s = (Normal (cachedExchangeRates s), s).
Proof. destruct s. reflexivity. Qed.

(** ** The exchange-rate cache of [src/unnamed/part_000] *)

Section RateCache.

Variable cfg : config.

Lemma cache_stale w s :
  ~ cache_fresh w s ->
  (clock w (ticks s) - lastFetchTime s <? Part000.CACHE_DURATION)
    && truthy (cachedExchangeRates s) = false.
Proof.
  intros H. apply not_true_is_false. intros Hb. apply H.
  apply andb_true_iff in Hb as [H1 H2]. apply Z.ltb_lt in H1. split; assumption.
Qed.

Lemma fetchExchangeRates_cached w s :
  cache_fresh w s ->
  Part000.fetchExchangeRates cfg w s = (Normal (cachedExchangeRates s), tick s).
Proof.
  intros [Ht Hc]. apply Z.ltb_lt in Ht. open_state s.
  unfold Part000.fetchExchangeRates, tick. drive. reflexivity.
Qed.

Lemma fetchExchangeRates_no_key w s :
  ~ cache_fresh w s ->
  as_truthy (EXCHANGE_RATE_API_KEY cfg) = None ->
  Part000.fetchExchangeRates cfg w s = (Normal hardcoded_rates, tick s).
Proof.
  intros Hstale Hkey. apply cache_stale in Hstale. open_state s.
  unfold Part000.fetchExchangeRates, tick. drive. reflexivity.
Qed.

Lemma fetchExchangeRates_fetch_threw w s api_key e :
  ~ cache_fresh w s ->
  as_truthy (EXCHANGE_RATE_API_KEY cfg) = Some api_key ->
  net w (fetches s) = inl e ->
  Part000.fetchExchangeRates cfg w s =
    (Normal hardcoded_rates,
     MkState (wooApiNonce s) (cachedExchangeRates s) (lastFetchTime s) (res s)
             (S (ticks s)) (S (fetches s))
             (trace s ++ [EvFetch (rate_request api_key)])).
Proof.
  intros Hstale Hkey Hnet. apply cache_stale in Hstale. open_state s.
  unfold Part000.fetchExchangeRates, rate_request. drive. reflexivity.
Qed.

Lemma fetchExchangeRates_accepted w s api_key r pair :
  ~ cache_fresh w s ->
  as_truthy (EXCHANGE_RATE_API_KEY cfg) = Some api_key ->
  net w (fetches s) = inr r ->
  accepted_reply r pair ->
  Part000.fetchExchangeRates cfg w s =
    (Normal pair,
     MkState (wooApiNonce s) pair (clock w (S (ticks s))) (res s)
             (S (S (ticks s))) (S (fetches s))
             (trace s ++
                [EvFetch (rate_request api_key); EvJson;
                 EvStore "cachedExchangeRates" pair;
                 EvStore "lastFetchTime" (VNum (inject_Z (clock w (S (ticks s)))))])).
Proof.
  intros Hstale Hkey Hnet [data rates usd zar Hok Hj Hres Hcr Ht Husd Hzar].
  apply cache_stale in Hstale. open_state s.
  unfold Part000.fetchExchangeRates, rate_request. drive.
  rewrite strict_eq_str_refl. drive.
  rewrite <- !app_assoc. reflexivity.
Qed.

Lemma fetchExchangeRates_rejected w s api_key r :
  ~ cache_fresh w s ->
  as_truthy (EXCHANGE_RATE_API_KEY cfg) = Some api_key ->
  net w (fetches s) = inr r ->
  rejected_reply r ->
  Part000.fetchExchangeRates cfg w s =
    (Normal hardcoded_rates,
     MkState (wooApiNonce s) (cachedExchangeRates s) (lastFetchTime s) (res s)
             (S (ticks s)) (S (fetches s))
             (trace s ++ [EvFetch (rate_request api_key); EvJson])).
Proof.
  intros Hstale Hkey Hnet Hrej.
  apply cache_stale in Hstale. open_state s.
  unfold Part000.fetchExchangeRates, rate_request. drive.
  rewrite <- app_assoc. cbn [app].
  destruct Hrej as [Hok | e Hj | data Hj Hres | data rates Hj Hcr Ht];
    crunch; try reflexivity.
  all: exfalso;
    repeat match goal with
           | H : strict_eq_str _ _ = true |- _ => apply strict_eq_str_true in H
           end;
    congruence.
Qed.

Lemma accepted_or_rejected r :
  (exists pair, accepted_reply r pair) \/ rejected_reply r.
Proof.
  destruct (ok r) eqn:Hok; [|right; apply reply_non_success; assumption].
  destruct (json r) as [e|data] eqn:Hj; [right; eapply reply_unparsable; eassumption|].
  destruct (get_prop data "result") as [e|result] eqn:Hres;
    [right; eapply reply_no_success; [eassumption|rewrite Hres; discriminate]|].
  destruct (strict_eq_str result "success") eqn:Heq.
  - apply strict_eq_str_true in Heq as ->.
    destruct data; try discriminate.
    destruct (truthy (assoc "conversion_rates" fields)) eqn:Ht.
    + left. destruct (truthy_get_prop _ "USD" Ht) as [usd Husd].
      destruct (truthy_get_prop _ "ZAR" Ht) as [zar Hzar].
      eexists. eapply reply_accepted; eauto.
    + right. eapply reply_no_rates; eauto.
  - right. eapply reply_no_success; [eassumption|].
    rewrite Hres; intros [= ->]. rewrite strict_eq_str_refl in Heq. discriminate.
Qed.

Lemma cache_fresh_dec w s : {cache_fresh w s} + {~ cache_fresh w s}.
Proof.
  unfold cache_fresh.
  destruct (Z_lt_dec (clock w (ticks s) - lastFetchTime s) Part000.CACHE_DURATION);
    destruct (truthy (cachedExchangeRates s)); intuition congruence.
Defined.

(** Every call takes one of three roads: the cached pair, a failure path,
    or a fetch the code accepts. *)
Lemma fetchExchangeRates_paths w s :
  cache_fresh w s \/ failure_path cfg w s \/
  exists api_key r pair,
    as_truthy (EXCHANGE_RATE_API_KEY cfg) = Some api_key /\
    net w (fetches s) = inr r /\ accepted_reply r pair.
Proof.
  destruct (as_truthy (EXCHANGE_RATE_API_KEY cfg)) as [api_key|] eqn:Hkey;
    [|right; left; apply missing_api_key; assumption].
  destruct (net w (fetches s)) as [e|r] eqn:Hnet;
    [right; left; eapply fetch_threw; eassumption|].
  destruct (accepted_or_rejected r) as [[pair Hacc]|Hrej].
  - right. right. eauto 6.
  - right. left. eapply reply_rejected; eassumption.
Qed.

(** C1, as the code has it.  In [src/unnamed/part_000]: two calls of
    [fetchExchangeRates], the first of which fetched a pair from the rate
    service with success.  Whatever ran in between left the cache alone.
    If the second call reads the clock less than [CACHE_DURATION] after the
    time stamp of the first, it returns the cached pair and performs no
    fetch; if it reads it later and the rate service delivers a pair again,
    that fresh pair is fetched, stored in the cache together with a new
    reading of the clock, and returned.  In [src/server.js] the function
    has no cache window: every call, whatever the clock reads and whatever
    the rate service would deliver, returns the pair held in
    [cachedExchangeRates] (the hardcoded pair from the load of the module
    on), performs no effect, and leaves the module-level variables as they
    were. *)
Theorem fetchExchangeRates_twice w :
  (forall s0 api_key r1 pair1,
     ~ cache_fresh w s0 ->
     as_truthy (EXCHANGE_RATE_API_KEY cfg) = Some api_key ->
     net w (fetches s0) = inr r1 ->
     accepted_reply r1 pair1 ->
     let first := Part000.fetchExchangeRates cfg w s0 in
     fst first = Normal pair1 /\
     cachedExchangeRates (snd first) = pair1 /\
     lastFetchTime (snd first) = clock w (S (ticks s0)) /\
     forall s1,
       rates_cache s1 = rates_cache (snd first) ->
       let second := Part000.fetchExchangeRates cfg w s1 in
       (clock w (ticks s1) - lastFetchTime (snd first) < Part000.CACHE_DURATION ->
          fst second = Normal pair1 /\
          events_since s1 (snd second) = [] /\
          rates_cache (snd second) = rates_cache s1) /\
       (Part000.CACHE_DURATION <= clock w (ticks s1) - lastFetchTime (snd first) ->
          forall r2 pair2,
            net w (fetches s1) = inr r2 ->
            accepted_reply r2 pair2 ->
            fst second = Normal pair2 /\
            fetched (events_since s1 (snd second)) = [rate_request api_key] /\
            cachedExchangeRates (snd second) = pair2 /\
            lastFetchTime (snd second) = clock w (S (ticks s1)))) /\
  cachedExchangeRates (ServerJs.loaded w) = hardcoded_rates /\
  (forall s,
     let out := ServerJs.fetchExchangeRates w s in
     fst out = Normal (cachedExchangeRates s) /\
     events_since s (snd out) = [] /\
     snd out = s).
Proof.
  split; [|split; [reflexivity|]].
  - intros s0 api_key r1 pair1 Hstale Hkey Hnet Hacc first. subst first.
    rewrite (fetchExchangeRates_accepted _ _ _ _ _ Hstale Hkey Hnet Hacc).
    cbn [fst snd cachedExchangeRates lastFetchTime].
    do 3 (split; [reflexivity|]).
    intros s1 Hsame.
    unfold rates_cache in Hsame.
    cbn [cachedExchangeRates lastFetchTime] in Hsame.
    injection Hsame as Hc Ht.
    split.
    + intros Hlt.
      assert (Hfresh : cache_fresh w s1).
      { split; [rewrite Ht; assumption|].
        rewrite Hc. destruct Hacc. reflexivity. }
      rewrite (fetchExchangeRates_cached _ _ Hfresh). cbn [fst snd].
      split; [congruence|]. split; [|reflexivity].
      apply events_since_app. unfold tick. cbn [trace].
      symmetry. apply app_nil_r.
    + intros Hge r2 pair2 Hnet2 Hacc2.
      assert (Hstale1 : ~ cache_fresh w s1).
      { intros [Hlt _]. rewrite Ht in Hlt. lia. }
      rewrite (fetchExchangeRates_accepted _ _ _ _ _ Hstale1 Hkey Hnet2 Hacc2).
      cbn [fst snd cachedExchangeRates lastFetchTime].
      split; [reflexivity|]. split; [|split; reflexivity].
      erewrite events_since_app; [|cbn [trace]; reflexivity].
      reflexivity.
  - intros s out. subst out.
    rewrite server_js_fetchExchangeRates_reads_only. cbn [fst snd].
    split; [reflexivity|]. split; [apply events_since_refl|reflexivity].
Qed.

(** C7.  A call that takes a failure path (no API key; [fetch] throws;
    the rate service answers with a non-success status, with a body that
    is not JSON, or with a payload without a success result or without
    rates) writes neither [cachedExchangeRates] nor [lastFetchTime]: both
    hold after the call what they held before, and unless the cached pair
    was served the call returns the hardcoded pair. *)
Theorem failure_path_keeps_cache w s :
  failure_path cfg w s ->
  let out := Part000.fetchExchangeRates cfg w s in
  cachedExchangeRates (snd out) = cachedExchangeRates s /\
  lastFetchTime (snd out) = lastFetchTime s /\
  stores (events_since s (snd out)) = [] /\
  (~ cache_fresh w s -> fst out = Normal hardcoded_rates).
Proof.
  intros Hfail out. subst out.
  destruct (cache_fresh_dec w s) as [Hfresh|Hstale].
  - rewrite (fetchExchangeRates_cached _ _ Hfresh). cbn [fst snd].
    unfold tick. cbn [cachedExchangeRates lastFetchTime].
    do 2 (split; [reflexivity|]). split; [|contradiction].
    erewrite events_since_app; [|cbn [trace]; symmetry; apply app_nil_r].
    reflexivity.
  - destruct Hfail as [Hkey | api_key e Hkey Hnet | api_key r Hkey Hnet Hrej].
    + rewrite (fetchExchangeRates_no_key _ _ Hstale Hkey). cbn [fst snd].
      unfold tick. cbn [cachedExchangeRates lastFetchTime].
      do 2 (split; [reflexivity|]). split; [|reflexivity].
      erewrite events_since_app; [|cbn [trace]; symmetry; apply app_nil_r].
      reflexivity.
    + rewrite (fetchExchangeRates_fetch_threw _ _ _ _ Hstale Hkey Hnet).
      cbn [fst snd cachedExchangeRates lastFetchTime].
      do 2 (split; [reflexivity|]). split; [|reflexivity].
      erewrite events_since_app; [|cbn [trace]; reflexivity].
      reflexivity.
    + rewrite (fetchExchangeRates_rejected _ _ _ _ Hstale Hkey Hnet Hrej).
      cbn [fst snd cachedExchangeRates lastFetchTime].
      do 2 (split; [reflexivity|]). split; [|reflexivity].
      erewrite events_since_app; [|cbn [trace]; reflexivity].
      reflexivity.
Qed.

(** Without an API key no call writes any module-level variable. *)
Lemma fetchExchangeRates_no_key_keeps :
  as_truthy (EXCHANGE_RATE_API_KEY cfg) = None ->
  keeps globals (Part000.fetchExchangeRates cfg).
Proof.
  intros Hkey w s.
  destruct (cache_fresh_dec w s) as [Hfresh|Hstale].
  - rewrite (fetchExchangeRates_cached _ _ Hfresh). reflexivity.
  - rewrite (fetchExchangeRates_no_key _ _ Hstale Hkey). reflexivity.
Qed.

End RateCache.

(** ** What the handlers leave alone *)

Section HandlerFrames.

Variable Number_toString : Q -> string.
Variable cfg : config.

Lemma api_init_keeps_rates_cache req : keeps rates_cache (api_init cfg req).
Proof. unfold api_init. frame. Qed.

Lemma api_cart_keeps_globals req : keeps globals (api_cart cfg req).
Proof. unfold api_cart. frame. Qed.

Lemma api_products_keeps_globals req :
  keeps globals (api_products Number_toString cfg req).
Proof. unfold api_products. frame. Qed.

Lemma api_cart_add_keeps_globals req :
  keeps globals (api_cart_add Number_toString cfg req).
Proof. unfold api_cart_add. frame. Qed.

Lemma api_cart_update_item_keeps_globals req :
  keeps globals (api_cart_update_item Number_toString cfg req).
Proof. unfold api_cart_update_item. frame. Qed.

Lemma server_js_remove_item_keeps_globals req :
  keeps globals (ServerJs.api_cart_remove_item Number_toString cfg req).
Proof. unfold ServerJs.api_cart_remove_item. frame. Qed.

Lemma part_000_remove_item_keeps_globals req :
  keeps globals (Part000.api_cart_remove_item Number_toString cfg req).
Proof. unfold Part000.api_cart_remove_item. frame. Qed.

Lemma server_js_fetchExchangeRates_keeps_globals :
  keeps globals ServerJs.fetchExchangeRates.
Proof. unfold ServerJs.fetchExchangeRates. frame. Qed.

Lemma server_js_exchange_rates_keeps_globals req :
  keeps globals (ServerJs.api_exchange_rates req).
Proof. unfold ServerJs.api_exchange_rates, ServerJs.fetchExchangeRates. frame. Qed.

Lemma part_000_exchange_rates_keeps_globals req :
  as_truthy (EXCHANGE_RATE_API_KEY cfg) = None ->
  keeps globals (Part000.api_exchange_rates cfg req).
Proof.
  intros Hkey. unfold Part000.api_exchange_rates.
  apply keeps_bind; [apply fetchExchangeRates_no_key_keeps; assumption|].
  intros. frame.
Qed.

Lemma rates_cache_with_res r s : rates_cache (with_res r s) = rates_cache s.
Proof. reflexivity. Qed.

(** [src/server.js]: no request writes the cache or its time stamp. *)
Lemma server_js_route_keeps_rates_cache e req :
  keeps rates_cache (serve (ServerJs.route Number_toString cfg e) req).
Proof.
  apply keeps_serve; [apply rates_cache_with_res|].
  destruct e; cbn [ServerJs.route];
    first [ apply api_init_keeps_rates_cache | apply globals_rates_cache ];
    auto using api_cart_keeps_globals, api_products_keeps_globals,
      api_cart_add_keeps_globals, api_cart_update_item_keeps_globals,
      server_js_remove_item_keeps_globals, server_js_exchange_rates_keeps_globals.
Qed.

(** [src/unnamed/part_000] without an API key: the same. *)
Lemma part_000_route_keeps_rates_cache e req :
  as_truthy (EXCHANGE_RATE_API_KEY cfg) = None ->
  keeps rates_cache (serve (Part000.route Number_toString cfg e) req).
Proof.
  intros Hkey.
  apply keeps_serve; [apply rates_cache_with_res|].
  destruct e; cbn [Part000.route];
    first [ apply api_init_keeps_rates_cache | apply globals_rates_cache ];
    auto using api_cart_keeps_globals, api_products_keeps_globals,
      api_cart_add_keeps_globals, api_cart_update_item_keeps_globals,
      part_000_remove_item_keeps_globals, part_000_exchange_rates_keeps_globals.
Qed.

Lemma run_requests_keeps {B} (f : state -> B) route rs w s :
  (forall e req, keeps f (serve (route e) req)) ->
  f (run_requests route rs w s) = f s.
Proof.
  intros Hroute. revert s.
  induction rs as [|[e req] rs IH]; intros s; cbn [run_requests]; [reflexivity|].
  rewrite IH. apply Hroute.
Qed.

(** C6.  In [src/unnamed/part_000], with no rate-API key configured
    (unset or empty), a call of [fetchExchangeRates] made while nothing is
    cached returns the pair [{ USD: 1, ZAR: 19.00 }] and leaves the cache
    empty; hence, from start-up on and whatever requests are served, every
    call returns that pair.  In [src/server.js] every call returns that
    pair, with or without a key. *)
Theorem missing_key_serves_hardcoded_rates w :
  (as_truthy (EXCHANGE_RATE_API_KEY cfg) = None ->
   (forall s,
      cachedExchangeRates s = VNull ->
      fst (Part000.fetchExchangeRates cfg w s) = Normal hardcoded_rates /\
      cachedExchangeRates (snd (Part000.fetchExchangeRates cfg w s)) = VNull) /\
   (forall rs,
      let s := run_requests (Part000.route Number_toString cfg) rs w
                 (Part000.listening cfg w) in
      cachedExchangeRates s = VNull /\
      fst (Part000.fetchExchangeRates cfg w s) = Normal hardcoded_rates)) /\
  (forall rs,
     let s := run_requests (ServerJs.route Number_toString cfg) rs w
                (ServerJs.loaded w) in
     ServerJs.fetchExchangeRates w s = (Normal hardcoded_rates, s)).
Proof.
  assert (Hlocal : as_truthy (EXCHANGE_RATE_API_KEY cfg) = None ->
            forall s, cachedExchangeRates s = VNull ->
              fst (Part000.fetchExchangeRates cfg w s) = Normal hardcoded_rates /\
              cachedExchangeRates (snd (Part000.fetchExchangeRates cfg w s)) = VNull).
  { intros Hkey s Hnull.
    assert (Hstale : ~ cache_fresh w s).
    { intros [_ Ht]. rewrite Hnull in Ht. discriminate. }
    rewrite (fetchExchangeRates_no_key cfg _ _ Hstale Hkey).
    split; [reflexivity|]. exact Hnull. }
  split.
  - intros Hkey. split; [apply Hlocal; assumption|].
    intros rs s.
    assert (Hnull : cachedExchangeRates s = VNull).
    { change (fst (rates_cache s) = VNull). subst s.
      rewrite (run_requests_keeps rates_cache);
        [|intros; apply part_000_route_keeps_rates_cache; assumption].
      unfold Part000.listening.
      apply (Hlocal Hkey Part000.loaded). reflexivity. }
    split; [assumption|]. apply Hlocal; assumption.
  - intros rs s.
    assert (Hsame : cachedExchangeRates s = hardcoded_rates).
    { change (fst (rates_cache s) = hardcoded_rates). subst s.
      rewrite (run_requests_keeps rates_cache);
        [reflexivity|intros; apply server_js_route_keeps_rates_cache]. }
    unfold ServerJs.fetchExchangeRates. destruct s. mred.
    cbn [cachedExchangeRates] in Hsame. rewrite Hsame. reflexivity.
Qed.

End HandlerFrames.

(** ** The relay handlers on given upstream answers *)

(** Brings [events_since s s'] to the list of events appended. *)
Ltac events :=
  unfold events_since; cbn [trace fst snd];
  rewrite <- ?app_assoc; cbn [app];
  rewrite ?drop_app_length.

Section Relay.

Variable Number_toString : Q -> string.
Variable cfg : config.

(** C8.  [GET /api/init] and [GET /api/cart] without a [Cart-Token] request
    header: the upstream call is issued all the same, with no [Cart-Token]
    header; and if the upstream answers with a success status, a JSON body
    and a session token (a non-empty [woocommerce-session] header), the
    handler responds with status 200, the token as the [Cart-Token]
    response header, and the token as the [cartToken] field of the body. *)
Theorem fresh_token_without_client_token (handler : request -> M unit) req w s :
  handler = api_init cfg \/ handler = api_cart cfg ->
  req_headers req !! "cart-token" = None ->
  let out := serve handler req w s in
  fetched (events_since s (snd out)) = [cart_request_without_token cfg] /\
  forall r data tok,
    net w (fetches s) = inr r ->
    ok r = true ->
    json r = inr data ->
    resp_headers r !! "woocommerce-session" = Some tok ->
    tok <> "" ->
    fst out = Normal VUndefined /\
    sent (events_since s (snd out)) =
      [(200, <["Cart-Token" := tok]> ∅,
        JsonBody (VObj [("cart", data); ("cartToken", VStr tok)]))].
Proof.
  intros Hh Htok out. subst out. open_state s.
  pose proof truthy_nonempty as Htruthy.
  destruct Hh as [-> | ->].
  - split.
    + unfold api_init. mred. rewrite Htok. cbn [add_header as_truthy].
      crunch; events; reflexivity.
    + intros r data tok Hnet Hok Hj Hsess Hne.
      unfold api_init. mred. rewrite Htok. cbn [add_header as_truthy].
      drive. rewrite (as_truthy_nonempty _ Hne).
      destruct (as_truthy (resp_headers r !! "nonce")); drive;
        (split; [reflexivity|]); events;
        unfold js_or, or_null; rewrite (Htruthy _ Hne); reflexivity.
  - split.
    + unfold api_cart. mred. rewrite Htok. cbn [add_header as_truthy].
      crunch; events; reflexivity.
    + intros r data tok Hnet Hok Hj Hsess Hne.
      unfold api_cart. mred. rewrite Htok. cbn [add_header as_truthy].
      drive. rewrite (as_truthy_nonempty _ Hne). drive.
      split; [reflexivity|]. events.
      unfold js_or, or_null. rewrite (Htruthy _ Hne). reflexivity.
Qed.

(** C9.  [POST /api/cart/remove-item], in both files, when the request
    reaches the upstream call and the upstream answers 204: the handler
    responds 204 with no body, never calls [response.json()], and the
    response carries the session token of the 204 answer (a non-empty
    [woocommerce-session] header) as its [Cart-Token] header. *)
Theorem remove_item_no_content (handler : request -> M unit) req w s key text r :
  handler = ServerJs.api_cart_remove_item Number_toString cfg \/
  handler = Part000.api_cart_remove_item Number_toString cfg ->
  destructure (req_body req) "key" = inr key ->
  ToString Number_toString key = inr text ->
  net w (fetches s) = inr r ->
  status r = 204 ->
  let out := serve handler req w s in
  fst out = Normal VUndefined /\
  parse_attempts (events_since s (snd out)) = 0%nat /\
  (exists hs, sent (events_since s (snd out)) = [(204, hs, NoBody)]) /\
  forall tok,
    resp_headers r !! "woocommerce-session" = Some tok ->
    tok <> "" ->
    sent (events_since s (snd out)) = [(204, <["Cart-Token" := tok]> ∅, NoBody)].
Proof.
  intros Hh Hkey Htext Hnet Hst out. subst out. open_state s.
  apply Z.eqb_eq in Hst.
  destruct Hh as [-> | ->].
  - unfold ServerJs.api_cart_remove_item. drive.
    destruct (as_truthy (resp_headers r !! "woocommerce-session")) as [t|] eqn:Ht;
      drive.
    + split; [reflexivity|]. split; [events; reflexivity|].
      split; [eexists; events; reflexivity|].
      intros tok Hsess Hne. rewrite Hsess, (as_truthy_nonempty _ Hne) in Ht.
      injection Ht as ->. events. reflexivity.
    + split; [reflexivity|]. split; [events; reflexivity|].
      split; [eexists; events; reflexivity|].
      intros tok Hsess Hne. rewrite Hsess, (as_truthy_nonempty _ Hne) in Ht.
      discriminate.
  - unfold Part000.api_cart_remove_item. drive.
    destruct (as_truthy (resp_headers r !! "woocommerce-session")) as [t|] eqn:Ht;
      drive.
    + split; [reflexivity|]. split; [events; reflexivity|].
      split; [eexists; events; reflexivity|].
      intros tok Hsess Hne. rewrite Hsess, (as_truthy_nonempty _ Hne) in Ht.
      injection Ht as ->. events. reflexivity.
    + split; [reflexivity|]. split; [events; reflexivity|].
      split; [eexists; events; reflexivity|].
      intros tok Hsess Hne. rewrite Hsess, (as_truthy_nonempty _ Hne) in Ht.
      discriminate.
Qed.

(** C10.  [POST /api/cart/remove-item] of [src/unnamed/part_000], when the
    request reaches the upstream call and the upstream answers with a
    status other than 204: whatever the answer holds, the handler ends by
    throwing the [ReferenceError] of the undeclared [showCartError] out of
    its [catch] block, and it has sent no response. *)
Theorem part_000_remove_item_never_responds req w s key text r :
  destructure (req_body req) "key" = inr key ->
  ToString Number_toString key = inr text ->
  net w (fetches s) = inr r ->
  status r <> 204 ->
  let out := serve (Part000.api_cart_remove_item Number_toString cfg) req w s in
  fst out = Thrown (not_defined "showCartError") /\
  sent (events_since s (snd out)) = [].
Proof.
  intros Hkey Htext Hnet Hst out. subst out. open_state s.
  apply Z.eqb_neq in Hst.
  unfold Part000.api_cart_remove_item. crunch.
  all: split; [reflexivity|events; reflexivity].
Qed.

(** C2, as the code has it.  [GET /api/init] assigns a non-empty [nonce]
    header of the upstream response to [wooApiNonce] after the fetch and
    before it parses the body and responds, whatever the response turns
    out to be.  [GET /api/cart] and the three cart-mutating handlers never
    write [wooApiNonce]. *)
Theorem nonce_is_stored_by_init_only req w s :
  (forall r n,
     net w (fetches s) = inr r ->
     resp_headers r !! "nonce" = Some n ->
     n <> "" ->
     let out := serve (api_init cfg) req w s in
     wooApiNonce (snd out) = Some n /\
     exists rq code hs body,
       events_since s (snd out) =
         [EvFetch rq; EvStore "wooApiNonce" (VStr n); EvJson; EvSend code hs body]) /\
  (forall handler,
     In handler
        [api_cart cfg;
         api_cart_add Number_toString cfg;
         api_cart_update_item Number_toString cfg;
         ServerJs.api_cart_remove_item Number_toString cfg;
         Part000.api_cart_remove_item Number_toString cfg] ->
     wooApiNonce (snd (serve handler req w s)) = wooApiNonce s).
Proof.
  split.
  - intros r n Hnet Hnonce Hne out. subst out. open_state s.
    unfold api_init. drive. rewrite (as_truthy_nonempty _ Hne).
    crunch.
    all: split; [reflexivity|do 4 eexists; events; reflexivity].
  - intros handler Hin.
    change (fst (fst (globals (snd (serve handler req w s)))) =
            fst (fst (globals s))).
    f_equal. f_equal.
    apply keeps_serve; [reflexivity|].
    cbn [In] in Hin.
    destruct Hin as [<- | [<- | [<- | [<- | [<- | []]]]]];
      auto using api_cart_keeps_globals, api_cart_add_keeps_globals,
        api_cart_update_item_keeps_globals, server_js_remove_item_keeps_globals,
        part_000_remove_item_keeps_globals.
Qed.

(** C3, as the code has it.  The upstream answers with a non-success
    status and a JSON body [data].  [GET /api/init], [GET /api/cart],
    [POST /api/cart/add] and [POST /api/cart/update-item] respond with the
    upstream status and a body that holds [data.message] and [data];
    [POST /api/cart/remove-item] of [src/server.js] responds with the
    upstream status and [data] itself.  [GET /api/products] responds with
    status 500 whatever [data] is, and with the upstream message in
    [details] when that message is a non-empty string. *)
Theorem upstream_error_status_is_relayed req w s r data :
  net w (fetches s) = inr r ->
  ok r = false ->
  json r = inr data ->
  (forall msg,
     get_prop data "message" = inr msg ->
     (forall handler fallback,
        In (handler, fallback)
           [(api_init cfg, "Failed to initialize session from WooCommerce");
            (api_cart cfg, "Failed to fetch cart")] ->
        exists hs,
          sent (events_since s (snd (serve handler req w s))) =
            [(status r, hs, JsonBody (relayed_error msg fallback data))]) /\
     (readable Number_toString (req_body req) ["productId"; "quantity"] ->
      exists hs,
        sent (events_since s
                (snd (serve (api_cart_add Number_toString cfg) req w s))) =
          [(status r, hs, JsonBody (relayed_error msg "Failed to add to cart" data))]) /\
     (readable Number_toString (req_body req) ["key"; "quantity"] ->
      exists hs,
        sent (events_since s
                (snd (serve (api_cart_update_item Number_toString cfg) req w s))) =
          [(status r, hs,
            JsonBody (relayed_error msg "Failed to update item quantity" data))]) /\
     (forall m,
        msg = VStr m -> m <> "" ->
        sent (events_since s
                (snd (serve (api_products Number_toString cfg) req w s))) =
          [(500, ∅,
            JsonBody (VObj [("message", VStr "Failed to fetch products.");
                            ("details", VStr m)]))])) /\
  (readable Number_toString (req_body req) ["key"] ->
   exists hs,
     sent (events_since s
             (snd (serve (ServerJs.api_cart_remove_item Number_toString cfg) req w s))) =
       [(status r, hs, JsonBody data)]) /\
  (exists details,
     sent (events_since s
             (snd (serve (api_products Number_toString cfg) req w s))) =
       [(500, ∅,
         JsonBody (VObj [("message", VStr "Failed to fetch products.");
                         ("details", VStr details)]))]).
Proof.
  intros Hnet Hok Hj. open_state s. split; [|split].
  - intros msg Hmsg. repeat split.
    + intros handler fallback Hin. cbn [In] in Hin.
      destruct Hin as [[= <- <-] | [[= <- <-] | []]].
      * unfold api_init. crunch; eexists; events; reflexivity.
      * unfold api_cart. crunch; eexists; events; reflexivity.
    + intros Hread. unfold readable in Hread.
      apply Forall_cons in Hread as [(pid & t1 & Hd1 & Ht1) Hread].
      apply Forall_cons in Hread as [(qty & t2 & Hd2 & Ht2) _].
      unfold api_cart_add. crunch; eexists; events; reflexivity.
    + intros Hread. unfold readable in Hread.
      apply Forall_cons in Hread as [(key & t1 & Hd1 & Ht1) Hread].
      apply Forall_cons in Hread as [(qty & t2 & Hd2 & Ht2) _].
      unfold api_cart_update_item. crunch; eexists; events; reflexivity.
    + intros m -> Hm. unfold api_products. drive.
      unfold js_or. rewrite (truthy_nonempty _ Hm). cbn [ToString]. drive.
      events. reflexivity.
  - intros Hread. unfold readable in Hread.
    apply Forall_cons in Hread as [(key & t1 & Hd1 & Ht1) _].
    assert (Hst : (status r =? 204) = false).
    { apply Z.eqb_neq. intros H204. unfold ok in Hok. rewrite H204 in Hok.
      discriminate. }
    unfold ServerJs.api_cart_remove_item. crunch; eexists; events; reflexivity.
  - unfold api_products. crunch; eexists; events; reflexivity.
Qed.

(** C5, as the code has it.  [fetch] throws [e], or the upstream answers
    and [response.json()] throws [e].  [GET /api/init], [GET /api/cart],
    [GET /api/products] and [POST /api/cart/add] respond with status 500
    and the message of [e] as [details]; [POST /api/cart/update-item]
    responds with status 500.  [POST /api/cart/remove-item] of
    [src/server.js] does as the first four when [fetch] throws; when the
    parse of a non-204 answer throws, it responds 500 with a message that
    names the upstream status if that status is no success, and relays the
    status with an empty object if it is one.  [GET /api/exchange-rates]
    of [src/unnamed/part_000], when it has to fetch, responds 200 with the
    hardcoded pair. *)
Theorem exceptions_answered_with_500 req w s e :
  net w (fetches s) = inl e \/
  (exists r, net w (fetches s) = inr r /\ json r = inl e) ->
  (forall handler,
     In handler [api_init cfg; api_cart cfg; api_products Number_toString cfg] ->
     answers_500_with (message e) (events_since s (snd (serve handler req w s)))) /\
  (readable Number_toString (req_body req) ["productId"; "quantity"] ->
   answers_500_with (message e)
     (events_since s (snd (serve (api_cart_add Number_toString cfg) req w s)))) /\
  (readable Number_toString (req_body req) ["key"; "quantity"] ->
   exists hs body,
     sent (events_since s
             (snd (serve (api_cart_update_item Number_toString cfg) req w s))) =
       [(500, hs, body)]) /\
  (readable Number_toString (req_body req) ["key"] ->
   let out := serve (ServerJs.api_cart_remove_item Number_toString cfg) req w s in
   (net w (fetches s) = inl e ->
    answers_500_with (message e) (events_since s (snd out))) /\
   (forall r,
      net w (fetches s) = inr r -> json r = inl e -> status r <> 204 ->
      if ok r
      then exists hs, sent (events_since s (snd out)) = [(status r, hs, JsonBody (VObj []))]
      else answers_500_with
             ("Store API remove failed with status " +:+ pretty (status r))
             (events_since s (snd out)))) /\
  (forall api_key,
     ~ cache_fresh w s ->
     as_truthy (EXCHANGE_RATE_API_KEY cfg) = Some api_key ->
     sent (events_since s (snd (serve (Part000.api_exchange_rates cfg) req w s))) =
       [(200, ∅, JsonBody hardcoded_rates)]).
Proof.
  intros Hexn.
  assert (Hrates : forall api_key,
            ~ cache_fresh w s ->
            as_truthy (EXCHANGE_RATE_API_KEY cfg) = Some api_key ->
            sent (events_since s
                    (snd (serve (Part000.api_exchange_rates cfg) req w s))) =
              [(200, ∅, JsonBody hardcoded_rates)]).
  { intros api_key Hstale Hkey. apply cache_stale in Hstale. open_state s.
    unfold Part000.api_exchange_rates, Part000.fetchExchangeRates.
    destruct Hexn as [Hnet | (r & Hnet & Hj)]; drive; events; reflexivity. }
  open_state s. unfold answers_500_with. repeat split; [| | | | |exact Hrates].
  - intros handler Hin. cbn [In] in Hin.
    destruct Hin as [<- | [<- | [<- | []]]];
      destruct Hexn as [Hnet | (r & Hnet & Hj)].
    + unfold api_init. crunch; do 2 eexists; events; reflexivity.
    + unfold api_init. crunch; do 2 eexists; events; reflexivity.
    + unfold api_cart. crunch; do 2 eexists; events; reflexivity.
    + unfold api_cart. crunch; do 2 eexists; events; reflexivity.
    + unfold api_products. crunch; do 2 eexists; events; reflexivity.
    + unfold api_products. crunch; do 2 eexists; events; reflexivity.
  - intros Hread. unfold readable in Hread.
    apply Forall_cons in Hread as [(pid & t1 & Hd1 & Ht1) Hread].
    apply Forall_cons in Hread as [(qty & t2 & Hd2 & Ht2) _].
    destruct Hexn as [Hnet | (r & Hnet & Hj)];
      unfold api_cart_add; crunch; do 2 eexists; events; reflexivity.
  - intros Hread. unfold readable in Hread.
    apply Forall_cons in Hread as [(key & t1 & Hd1 & Ht1) Hread].
    apply Forall_cons in Hread as [(qty & t2 & Hd2 & Ht2) _].
    destruct Hexn as [Hnet | (r & Hnet & Hj)];
      unfold api_cart_update_item; crunch; do 2 eexists; events; reflexivity.
  - intros Hnet. unfold readable in H.
    apply Forall_cons in H as [(key & t1 & Hd1 & Ht1) _].
    unfold ServerJs.api_cart_remove_item. crunch; do 2 eexists; events; reflexivity.
  - intros r Hnet Hj Hst. unfold readable in H.
    apply Forall_cons in H as [(key & t1 & Hd1 & Hj1) _].
    apply Z.eqb_neq in Hst.
    unfold ServerJs.api_cart_remove_item.
    destruct (ok r) eqn:Hok.
    + crunch; eexists; events; reflexivity.
    + crunch; do 2 eexists; events; reflexivity.
Qed.

End Relay.

(** ** What the handlers append to the trace *)

Section Appends.
Variable Q : event -> Prop.

Lemma appends_nothing {A} (m : M A) :
  (forall w s, trace (snd (m w s)) = trace s) -> appends Q m.
Proof.
  intros H w s. exists []. rewrite H, app_nil_r. split; [reflexivity|constructor].
Qed.

Lemma appends_one {A} (m : M A) ev :
  Q ev -> (forall w s, trace (snd (m w s)) = trace s ++ [ev]) -> appends Q m.
Proof.
  intros HQ H w s. exists [ev]. split; [apply H|]. constructor; [assumption|constructor].
Qed.

Lemma appends_ret {A} (a : A) : appends Q (ret a).
Proof. apply appends_nothing. reflexivity. Qed.

Lemma appends_return {A} v : appends Q (@return_ A v).
Proof. apply appends_nothing. reflexivity. Qed.

Lemma appends_throw {A} e : appends Q (@throw A e).
Proof. apply appends_nothing. reflexivity. Qed.

Lemma appends_lift {A} (x : exn + A) : appends Q (lift x).
Proof. apply appends_nothing. destruct x; reflexivity. Qed.

Lemma appends_gets {A} (g : state -> A) : appends Q (gets g).
Proof. apply appends_nothing. reflexivity. Qed.

Lemma appends_Date_now : appends Q Date_now.
Proof. apply appends_nothing. reflexivity. Qed.

Lemma appends_res_setHeader k v : appends Q (res_setHeader k v).
Proof. apply appends_nothing. reflexivity. Qed.

Lemma appends_res_status c : appends Q (res_status c).
Proof. apply appends_nothing. reflexivity. Qed.

Lemma appends_fetch rq : Q (EvFetch rq) -> appends Q (fetch rq).
Proof.
  intros HQ. apply (appends_one _ (EvFetch rq) HQ).
  intros w s. unfold fetch. destruct (net w (fetches s)); reflexivity.
Qed.

Lemma appends_response_json r : Q EvJson -> appends Q (response_json r).
Proof.
  intros HQ. apply (appends_one _ EvJson HQ).
  intros w s. unfold response_json. destruct (json r); reflexivity.
Qed.

Lemma appends_set_wooApiNonce n :
  Q (EvStore "wooApiNonce" (VStr n)) -> appends Q (set_wooApiNonce n).
Proof. intros HQ. apply (appends_one _ _ HQ). reflexivity. Qed.

Lemma appends_set_cachedExchangeRates v :
  Q (EvStore "cachedExchangeRates" v) -> appends Q (set_cachedExchangeRates v).
Proof. intros HQ. apply (appends_one _ _ HQ). reflexivity. Qed.

Lemma appends_set_lastFetchTime t :
  Q (EvStore "lastFetchTime" (VNum (inject_Z t))) -> appends Q (set_lastFetchTime t).
Proof. intros HQ. apply (appends_one _ _ HQ). reflexivity. Qed.

Lemma appends_res_json v :
  (forall c hs, Q (EvSend c hs (JsonBody v))) -> appends Q (res_json v).
Proof.
  intros HQ w s. exists [EvSend (statusCode (res s)) (res_headers (res s)) (JsonBody v)].
  split; [reflexivity|]. constructor; [apply HQ|constructor].
Qed.

Lemma appends_res_send : (forall c hs, Q (EvSend c hs NoBody)) -> appends Q res_send.
Proof.
  intros HQ w s. exists [EvSend (statusCode (res s)) (res_headers (res s)) NoBody].
  split; [reflexivity|]. constructor; [apply HQ|constructor].
Qed.

Lemma appends_bind {A C} (m : M A) (k : A -> M C) :
  appends Q m -> (forall a, appends Q (k a)) -> appends Q (bind m k).
Proof.
  intros Hm Hk w s. unfold bind. destruct (Hm w s) as (evs & Ht & HQ).
  destruct (m w s) as [[a | v | e] s1]; cbn [snd] in *; eauto.
  destruct (Hk a w s1) as (evs' & Ht' & HQ').
  exists (evs ++ evs'). rewrite Ht', Ht, app_assoc. split; [reflexivity|].
  apply Forall_app. split; assumption.
Qed.

Lemma appends_try_catch {A} (m : M A) (h : exn -> M A) :
  appends Q m -> (forall e, appends Q (h e)) -> appends Q (try_catch m h).
Proof.
  intros Hm Hh w s. unfold try_catch. destruct (Hm w s) as (evs & Ht & HQ).
  destruct (m w s) as [[a | v | e] s1]; cbn [snd] in *; eauto.
  destruct (Hh e w s1) as (evs' & Ht' & HQ').
  exists (evs ++ evs'). rewrite Ht', Ht, app_assoc. split; [reflexivity|].
  apply Forall_app. split; assumption.
Qed.

Lemma appends_call (m : M unit) : appends Q m -> appends Q (call m).
Proof.
  intros Hm w s. unfold call. destruct (Hm w s) as (evs & Ht & HQ).
  destruct (m w s) as [[a | v | e] s1]; cbn [snd] in *; eauto.
Qed.

Lemma appends_if {A} (b : bool) (m1 m2 : M A) :
  appends Q m1 -> appends Q m2 -> appends Q (if b then m1 else m2).
Proof. destruct b; auto. Qed.

Lemma appends_match_option {A C} (o : option C) (m1 : C -> M A) (m2 : M A) :
  (forall c, appends Q (m1 c)) -> appends Q m2 ->
  appends Q (match o with Some c => m1 c | None => m2 end).
Proof. destruct o; auto. Qed.

Lemma appends_serve (h : request -> M unit) req :
  appends Q (h req) -> appends Q (serve h req).
Proof.
  intros Hh w s. unfold serve.
  destruct (appends_call _ Hh w (with_res fresh_res s)) as (evs & Ht & HQ).
  exists evs. split; assumption.
Qed.

Lemma appends_events_since {A} (m : M A) w s :
  appends Q m -> Forall Q (events_since s (snd (m w s))).
Proof.
  intros Hm. destruct (Hm w s) as (evs & Ht & HQ).
  rewrite (events_since_app _ _ _ Ht). assumption.
Qed.

End Appends.

(** Follows the structure of the computation; leaves the conditions on
    the events. *)
Ltac appending :=
  repeat first
    [ apply appends_ret | apply appends_return | apply appends_throw
    | apply appends_lift | apply appends_gets | apply appends_Date_now
    | apply appends_res_setHeader | apply appends_res_status
    | apply appends_fetch | apply appends_response_json
    | apply appends_set_wooApiNonce | apply appends_set_cachedExchangeRates
    | apply appends_set_lastFetchTime
    | apply appends_res_json; intros | apply appends_res_send; intros
    | apply appends_bind; [ | intros ]
    | apply appends_try_catch; [ | intros ]
    | apply appends_call
    | apply appends_if
    | apply appends_match_option; [ intros | ] ].

(** ** The headers of the outbound calls *)

Lemma allowed_headers_spec k :
  k ∈ allowed_headers <->
  k = "Content-Type" \/ k = "User-Agent" \/ k = "Cart-Token" \/ k = "Nonce".
Proof.
  unfold allowed_headers. rewrite !elem_of_union, !elem_of_singleton. tauto.
Qed.

Lemma add_header_allowed k o (hs : gmap string string) :
  k ∈ allowed_headers -> dom hs ⊆ allowed_headers ->
  dom (add_header k o hs) ⊆ allowed_headers.
Proof.
  intros Hk Hhs. unfold add_header. destruct (as_truthy o); [|assumption].
  rewrite dom_insert_L. intros x Hx.
  apply elem_of_union in Hx as [Hx | Hx]; [|auto].
  apply elem_of_singleton in Hx. subst x. assumption.
Qed.

Lemma empty_headers_allowed : dom (∅ : gmap string string) ⊆ allowed_headers.
Proof. rewrite dom_empty_L. intros x Hx. apply elem_of_empty in Hx as []. Qed.

Lemma insert_header_allowed k v (hs : gmap string string) :
  k ∈ allowed_headers -> dom hs ⊆ allowed_headers ->
  dom (<[k := v]> hs) ⊆ allowed_headers.
Proof.
  intros Hk Hhs. rewrite dom_insert_L. intros x Hx.
  apply elem_of_union in Hx as [Hx | Hx]; [|auto].
  apply elem_of_singleton in Hx. subst x. assumption.
Qed.

Lemma elem_of_fetched rq evs : rq ∈ fetched evs -> EvFetch rq ∈ evs.
Proof.
  unfold fetched. rewrite list_elem_of_omap. intros (ev & Hin & Hev).
  destruct ev; try discriminate. injection Hev as ->. assumption.
Qed.

Section Credentials.

Variable Number_toString : Q -> string.
Variable cfg : config.

(** Closes the conditions [appending] leaves for [no_credentials]. *)
Ltac headers_only :=
  try exact I;
  cbn [no_credentials out_headers]; unfold base_headers;
  repeat first
    [ apply empty_headers_allowed
    | apply add_header_allowed; [apply allowed_headers_spec; tauto|]
    | apply insert_header_allowed; [apply allowed_headers_spec; tauto|] ].

Lemma server_js_route_no_credentials e req :
  appends no_credentials (serve (ServerJs.route Number_toString cfg e) req).
Proof.
  apply appends_serve. destruct e; cbn [ServerJs.route].
  - unfold api_init. appending; headers_only.
  - unfold ServerJs.api_exchange_rates, ServerJs.fetchExchangeRates.
    appending; headers_only.
  - unfold api_products. appending; headers_only.
  - unfold api_cart_add. appending; headers_only.
  - unfold api_cart_update_item. appending; headers_only.
  - unfold ServerJs.api_cart_remove_item. appending; headers_only.
  - unfold api_cart. appending; headers_only.
Qed.

Lemma part_000_route_no_credentials e req :
  appends no_credentials (serve (Part000.route Number_toString cfg e) req).
Proof.
  apply appends_serve. destruct e; cbn [Part000.route].
  - unfold api_init. appending; headers_only.
  - unfold Part000.api_exchange_rates, Part000.fetchExchangeRates.
    appending; headers_only.
  - unfold api_products. appending; headers_only.
  - unfold api_cart_add. appending; headers_only.
  - unfold api_cart_update_item. appending; headers_only.
  - unfold Part000.api_cart_remove_item. appending; headers_only.
  - unfold api_cart. appending; headers_only.
Qed.

(** How far the missing [Authorization] header reaches.  The comment above
    [wooAuth] declares the encoded key pair "used for /init and possibly
    /products", and the code reports a fatal error when a half of the pair
    is missing; still no [fetch] of either file reads [wooAuth].  Whatever
    the configuration, the request and the upstream answers, an outbound
    call carries no header besides [Content-Type], [User-Agent],
    [Cart-Token] and [Nonce]. *)
Theorem no_outbound_call_carries_credentials e req w s rq :
  rq ∈ fetched (events_since s
                  (snd (serve (ServerJs.route Number_toString cfg e) req w s))) \/
  rq ∈ fetched (events_since s
                  (snd (serve (Part000.route Number_toString cfg e) req w s))) ->
  dom (out_headers rq) ⊆ allowed_headers /\
  out_headers rq !! "Authorization" = None /\
  out_headers rq !! "authorization" = None.
Proof.
  intros Hin.
  assert (Hdom : dom (out_headers rq) ⊆ allowed_headers).
  { destruct Hin as [Hin | Hin]; apply elem_of_fetched in Hin.
    - pose proof (appends_events_since no_credentials _ w s
                    (server_js_route_no_credentials e req)) as Hall.
      rewrite Forall_forall in Hall. apply (Hall _ Hin).
    - pose proof (appends_events_since no_credentials _ w s
                    (part_000_route_no_credentials e req)) as Hall.
      rewrite Forall_forall in Hall. apply (Hall _ Hin). }
  split; [assumption|].
  split; apply not_elem_of_dom; intros Hk; apply Hdom in Hk;
    unfold allowed_headers in Hk;
    rewrite !elem_of_union, !elem_of_singleton in Hk;
    intuition discriminate.
Qed.

End Credentials.

(** * Concrete runs *)

Lemma rates_reply_accepted zar : accepted_reply (rates_reply zar) (rates_pair zar).
Proof. eapply reply_accepted; reflexivity. Qed.

Lemma loaded_is_stale w : ~ cache_fresh w Part000.loaded.
Proof. intros [_ H]. discriminate H. Qed.

Lemma fetchExchangeRates_twice_witness :
  let c1 := Part000.fetchExchangeRates demo_cfg rate_world Part000.loaded in
  let c2 := Part000.fetchExchangeRates demo_cfg rate_world (snd c1) in
  let c3 := Part000.fetchExchangeRates demo_cfg rate_world (snd c2) in
  fst c1 = Normal (rates_pair (1850 # 100)%Q) /\
  (fst c2 = Normal (rates_pair (1850 # 100)%Q) /\ events_since (snd c1) (snd c2) = []) /\
  (fst c3 = Normal (rates_pair (1875 # 100)%Q) /\
   lastFetchTime (snd c3) = 1700007200000) /\
  fst (ServerJs.fetchExchangeRates rate_world (ServerJs.loaded rate_world)) =
    Normal hardcoded_rates.
Proof.
  intros c1 c2 c3.
  destruct (fetchExchangeRates_twice demo_cfg rate_world) as (Hpart & _ & Hserver).
  destruct (Hpart Part000.loaded
              "rate-key" (rates_reply (1850 # 100)%Q) (rates_pair (1850 # 100)%Q)
              (loaded_is_stale rate_world) eq_refl eq_refl
              (rates_reply_accepted _))
    as (H1 & _ & _ & Hnext).
  split; [exact H1|].
  assert (Hlast : fst (ServerJs.fetchExchangeRates rate_world
                         (ServerJs.loaded rate_world)) = Normal hardcoded_rates)
    by apply (Hserver (ServerJs.loaded rate_world)).
  refine ((fun H => conj (proj1 H) (conj (proj2 H) Hlast)) _).
  split.
  - destruct (Hnext (snd c1) eq_refl) as [Hin _].
    destruct Hin as (Ha & Hb & _); [vm_compute; reflexivity|].
    split; assumption.
  - destruct (Hnext (snd c2) eq_refl) as [_ Hout].
    destruct (Hout ltac:(vm_compute; discriminate)
                (rates_reply (1875 # 100)%Q) (rates_pair (1875 # 100)%Q)
                eq_refl (rates_reply_accepted _)) as (Ha & _ & _ & Hd).
    split; assumption.
Defined.

Lemma failure_path_keeps_cache_witness :
  let s1 := snd (Part000.fetchExchangeRates demo_cfg rate_world Part000.loaded) in
  let out := Part000.fetchExchangeRates demo_cfg late_offline s1 in
  fst out = Normal hardcoded_rates /\
  cachedExchangeRates (snd out) = rates_pair (1850 # 100)%Q /\
  lastFetchTime (snd out) = 1700000000500.
Proof.
  intros s1 out.
  destruct (failure_path_keeps_cache demo_cfg late_offline s1
              (fetch_threw demo_cfg late_offline s1 "rate-key"
                 (MkExn FetchError "connect ECONNREFUSED") eq_refl eq_refl))
    as (Hc & Ht & _ & Hr).
  split; [|split].
  - apply Hr. intros [Hlt _]. vm_compute in Hlt. discriminate Hlt.
  - exact Hc.
  - exact Ht.
Defined.

Lemma missing_key_serves_hardcoded_rates_witness :
  let w := always session_reply in
  let s := run_requests (Part000.route integer_toString demo_cfg_without_rate_key)
             [(GET_exchange_rates, bare_request); (GET_init, bare_request)] w
             (Part000.listening demo_cfg_without_rate_key w) in
  fst (Part000.fetchExchangeRates demo_cfg_without_rate_key w s)
    = Normal hardcoded_rates.
Proof.
  intros w s.
  destruct (missing_key_serves_hardcoded_rates integer_toString
              demo_cfg_without_rate_key w) as [Hpart _].
  destruct (Hpart eq_refl) as [_ Hall].
  exact (proj2 (Hall [(GET_exchange_rates, bare_request); (GET_init, bare_request)])).
Defined.

Lemma fresh_token_without_client_token_witness :
  let out := serve (api_init demo_cfg) bare_request (always session_reply)
               Part000.loaded in
  fst out = Normal VUndefined /\
  sent (events_since Part000.loaded (snd out)) =
    [(200, <["Cart-Token" := "tok-1"]> ∅,
      JsonBody (VObj [("cart", VObj [("items", VArr [])]);
                      ("cartToken", VStr "tok-1")]))].
Proof.
  intros out.
  destruct (fresh_token_without_client_token demo_cfg (api_init demo_cfg)
              bare_request (always session_reply) Part000.loaded
              (or_introl eq_refl) eq_refl) as [_ Hok].
  apply (Hok session_reply (VObj [("items", VArr [])]) "tok-1");
    try reflexivity. discriminate.
Defined.

Lemma remove_item_no_content_witness :
  let out := serve (ServerJs.api_cart_remove_item integer_toString demo_cfg)
               remove_request (always no_content_reply) Part000.loaded in
  fst out = Normal VUndefined /\
  parse_attempts (events_since Part000.loaded (snd out)) = 0%nat /\
  sent (events_since Part000.loaded (snd out)) =
    [(204, <["Cart-Token" := "tok-2"]> ∅, NoBody)].
Proof.
  intros out.
  destruct (remove_item_no_content integer_toString demo_cfg
              (ServerJs.api_cart_remove_item integer_toString demo_cfg)
              remove_request (always no_content_reply) Part000.loaded
              (VStr "item-7") "item-7" no_content_reply
              (or_introl eq_refl) eq_refl eq_refl eq_refl eq_refl)
    as (Hdone & Hparse & _ & Htok).
  split; [exact Hdone|]. split; [exact Hparse|].
  apply (Htok "tok-2"); [reflexivity|discriminate].
Defined.

Lemma part_000_remove_item_never_responds_witness :
  let out := serve (Part000.api_cart_remove_item integer_toString demo_cfg)
               remove_request (always session_reply) Part000.loaded in
  fst out = Thrown (not_defined "showCartError") /\
  sent (events_since Part000.loaded (snd out)) = [].
Proof.
  intros out.
  apply (part_000_remove_item_never_responds integer_toString demo_cfg
           remove_request (always session_reply) Part000.loaded
           (VStr "item-7") "item-7" session_reply);
    try reflexivity. discriminate.
Defined.

Lemma nonce_is_stored_by_init_only_witness :
  wooApiNonce
    (snd (serve (api_init demo_cfg) bare_request (always session_reply)
            Part000.loaded)) = Some "n-1" /\
  wooApiNonce
    (snd (serve (api_cart demo_cfg) bare_request (always session_reply)
            Part000.loaded)) = None.
Proof.
  destruct (nonce_is_stored_by_init_only integer_toString demo_cfg bare_request
              (always session_reply) Part000.loaded) as [Hinit Hrest].
  split.
  - apply (Hinit session_reply "n-1"); [reflexivity|reflexivity|discriminate].
  - apply (Hrest (api_cart demo_cfg)). left. reflexivity.
Defined.

Lemma upstream_error_status_is_relayed_witness :
  exists hs,
    sent (events_since Part000.loaded
            (snd (serve (api_cart demo_cfg) bare_request (always not_found_reply)
                    Part000.loaded))) =
      [(404, hs,
        JsonBody (VObj [("message", VStr "Not found");
                        ("details", VObj [("message", VStr "Not found")])]))].
Proof.
  destruct (upstream_error_status_is_relayed integer_toString demo_cfg bare_request
              (always not_found_reply) Part000.loaded not_found_reply
              (VObj [("message", VStr "Not found")]) eq_refl eq_refl eq_refl)
    as [Hwrap _].
  destruct (Hwrap (VStr "Not found") eq_refl) as [Hget _].
  apply (Hget (api_cart demo_cfg) "Failed to fetch cart").
  right. left. reflexivity.
Defined.

Lemma exceptions_answered_with_500_witness :
  answers_500_with "connect ECONNREFUSED"
    (events_since Part000.loaded
       (snd (serve (api_init demo_cfg) bare_request offline Part000.loaded))).
Proof.
  destruct (exceptions_answered_with_500 integer_toString demo_cfg bare_request
              offline Part000.loaded (MkExn FetchError "connect ECONNREFUSED")
              (or_introl eq_refl)) as [Hget _].
  apply (Hget (api_init demo_cfg)). left. reflexivity.
Defined.

Lemma no_outbound_call_carries_credentials_witness :
  out_headers (cart_request_without_token demo_cfg) !! "Authorization" = None.
Proof.
  apply (no_outbound_call_carries_credentials integer_toString demo_cfg
           GET_init bare_request (always session_reply) Part000.loaded
           (cart_request_without_token demo_cfg)).
  left. vm_compute. apply list_elem_of_here.
Defined.

(** ** Where the claims as stated fail *)

(** C1 as stated: in [src/server.js], two hours after the pair was stored,
    with the API key configured and the rate service delivering a pair,
    [fetchExchangeRates] fetches nothing and returns the hardcoded pair,
    cache and time stamp stay as they were, and [GET /api/exchange-rates]
    answers with the hardcoded pair. *)
Lemma server_js_never_refetches :
  let s := ServerJs.loaded two_hours_later in
  let out := ServerJs.fetchExchangeRates two_hours_later s in
  let served :=
    serve (ServerJs.route integer_toString demo_cfg GET_exchange_rates)
      bare_request two_hours_later s in
  as_truthy (EXCHANGE_RATE_API_KEY demo_cfg) = Some "rate-key" /\
  net two_hours_later (fetches s) = inr (rates_reply (1875 # 100)%Q) /\
  accepted_reply (rates_reply (1875 # 100)%Q) (rates_pair (1875 # 100)%Q) /\
  Part000.CACHE_DURATION <= clock two_hours_later (ticks s) - lastFetchTime s /\
  fst out = Normal hardcoded_rates /\
  hardcoded_rates <> rates_pair (1875 # 100)%Q /\
  fetched (events_since s (snd out)) = [] /\
  rates_cache (snd out) = rates_cache s /\
  fetched (events_since s (snd served)) = [] /\
  sent (events_since s (snd served)) = [(200, ∅, JsonBody hardcoded_rates)].
Proof.
  intros s out served.
  split; [reflexivity|]. split; [reflexivity|].
  split; [apply rates_reply_accepted|].
  split; [vm_compute; discriminate|].
  split; [reflexivity|]. split; [discriminate|].
  repeat split; vm_compute; reflexivity.
Qed.

(** C2 as stated: [GET /api/cart] receives a [nonce] header, responds, and
    leaves the nonce slot as it was. *)
Lemma cart_drops_upstream_nonce :
  let out := serve (api_cart demo_cfg) bare_request (always session_reply)
               Part000.loaded in
  resp_headers session_reply !! "nonce" = Some "n-1" /\
  length (sent (events_since Part000.loaded (snd out))) = 1%nat /\
  wooApiNonce (snd out) <> Some "n-1".
Proof. vm_compute. repeat split; discriminate. Qed.

(** C3 as stated: [GET /api/products] answers an upstream 404 with 500. *)
Lemma products_answers_500_on_upstream_404 :
  let out := serve (api_products integer_toString demo_cfg) bare_request
               (always not_found_reply) Part000.loaded in
  status not_found_reply = 404 /\
  sent (events_since Part000.loaded (snd out)) =
    [(500, ∅,
      JsonBody (VObj [("message", VStr "Failed to fetch products.");
                      ("details", VStr "Not found")]))] /\
  ~ exists hs body,
      sent (events_since Part000.loaded (snd out)) = [(404, hs, body)].
Proof.
  vm_compute. repeat split. intros (hs & body & H). discriminate H.
Qed.

(** C5 as stated: in [src/server.js], [POST /api/cart/remove-item] swallows
    the parse error of a 200 answer and responds 200 with an empty object. *)
Lemma remove_item_swallows_parse_error :
  let out := serve (ServerJs.api_cart_remove_item integer_toString demo_cfg)
               remove_request (always garbled_reply) Part000.loaded in
  (exists e, json garbled_reply = inl e) /\
  sent (events_since Part000.loaded (snd out)) = [(200, ∅, JsonBody (VObj []))] /\
  ~ exists hs body,
      sent (events_since Part000.loaded (snd out)) = [(500, hs, body)].
Proof.
  vm_compute. split; [eexists; reflexivity|]. split; [reflexivity|].
  intros (hs & body & H). discriminate H.
Qed.

(** ** Where the code misses what it announces *)

(** C4.  Both halves of the key pair are configured and [wooAuth] holds
    their basic-auth encoding, which the comment above it declares "used
    for /init".  The outbound call of [GET /api/init] (the handler is the
    same in both files) is nevertheless sent with [Content-Type] and
    [User-Agent] and nothing else: the [Authorization] header that the
    comment announces is not attached. *)
Lemma init_call_has_no_authorization_header :
  let out := serve (api_init demo_cfg) bare_request (always session_reply)
               Part000.loaded in
  wooAuth demo_cfg = Some "Y2tfbGl2ZTpjc19saXZl" /\
  exists rq,
    fetched (events_since Part000.loaded (snd out)) = [rq] /\
    out_headers rq !! "Authorization" = None /\
    dom (out_headers rq) = {[ "Content-Type"; "User-Agent" ]}.
Proof.
  split; [reflexivity|].
  exists (cart_request_without_token demo_cfg).
  split; [vm_compute; reflexivity|]. split; [reflexivity|].
  vm_compute. reflexivity.
Qed.

(** * Further properties *)

(** ** The outbound calls of the relay handlers *)

Lemma add_header_lookup k o (hs : gmap string string) :
  add_header k o hs !! k =
    match as_truthy o with Some v => Some v | None => hs !! k end.
Proof.
  unfold add_header. destruct (as_truthy o); [apply lookup_insert_eq|reflexivity].
Qed.

Lemma add_header_lookup_ne k k' o (hs : gmap string string) :
  k <> k' -> add_header k o hs !! k' = hs !! k'.
Proof.
  intros Hne. unfold add_header. destruct (as_truthy o); [|reflexivity].
  apply lookup_insert_ne. assumption.
Qed.

Lemma session_headers_token req s :
  session_headers req s !! "Cart-Token" = as_truthy (req_headers req !! "cart-token").
Proof.
  unfold session_headers.
  rewrite add_header_lookup_ne by discriminate.
  rewrite add_header_lookup. destruct (as_truthy _); reflexivity.
Qed.

Lemma session_headers_nonce req s :
  session_headers req s !! "Nonce" = as_truthy (wooApiNonce s).
Proof.
  unfold session_headers. rewrite add_header_lookup.
  destruct (as_truthy (wooApiNonce s)); [reflexivity|].
  rewrite add_header_lookup_ne by discriminate. reflexivity.
Qed.

Lemma token_headers_token req :
  add_header "Cart-Token" (req_headers req !! "cart-token") base_headers !! "Cart-Token"
  = as_truthy (req_headers req !! "cart-token").
Proof. rewrite add_header_lookup. destruct (as_truthy _); reflexivity. Qed.

Lemma token_headers_nonce req :
  add_header "Cart-Token" (req_headers req !! "cart-token") base_headers !! "Nonce"
  = None.
Proof. rewrite add_header_lookup_ne by discriminate. reflexivity. Qed.

Lemma readable_cons nts body k ks :
  readable nts body (k :: ks) ->
  (exists x text, destructure body k = inr x /\ ToString nts x = inr text) /\
  readable nts body ks.
Proof. unfold readable. intros H. apply Forall_cons in H. exact H. Qed.

(** As [events], also when nothing was appended. *)
Ltac events_all := events; rewrite ?drop_all.

(** Reduces [fetched] on an explicit list of events and splits a [Forall]
    over it. *)
Ltac calls :=
  events_all; unfold fetched; cbn [omap list_omap];
  repeat (constructor; cbn [out_headers]).

Section OutboundCalls.

Variable Number_toString : Q -> string.
Variable cfg : config.

(** The one call of each cart-mutating handler, whatever the upstream
    answers to it. *)
Lemma add_call req w s pid qty t1 t2 :
  destructure (req_body req) "productId" = inr pid ->
  destructure (req_body req) "quantity" = inr qty ->
  ToString Number_toString pid = inr t1 ->
  ToString Number_toString qty = inr t2 ->
  fetched (events_since s (snd (serve (api_cart_add Number_toString cfg) req w s))) =
    [MkOutbound (interpolate (WOO_API_URL cfg) +:+ "/cart/add-item") "POST"
       (session_headers req s) (Some (VObj [("id", pid); ("quantity", qty)]))].
Proof.
  intros H1 H2 H3 H4. open_state s. unfold api_cart_add, session_headers.
  crunch; events; reflexivity.
Qed.

Lemma update_call req w s key qty t1 t2 :
  destructure (req_body req) "key" = inr key ->
  destructure (req_body req) "quantity" = inr qty ->
  ToString Number_toString key = inr t1 ->
  ToString Number_toString qty = inr t2 ->
  fetched (events_since s
             (snd (serve (api_cart_update_item Number_toString cfg) req w s))) =
    [MkOutbound (interpolate (WOO_API_URL cfg) +:+ "/cart/update-item") "POST"
       (session_headers req s) (Some (VObj [("key", key); ("quantity", qty)]))].
Proof.
  intros H1 H2 H3 H4. open_state s. unfold api_cart_update_item, session_headers.
  crunch; events; reflexivity.
Qed.

Lemma server_js_remove_call req w s key t1 :
  destructure (req_body req) "key" = inr key ->
  ToString Number_toString key = inr t1 ->
  fetched (events_since s
             (snd (serve (ServerJs.api_cart_remove_item Number_toString cfg) req w s))) =
    [MkOutbound (interpolate (WOO_API_URL cfg) +:+ "/cart/remove-item") "POST"
       (session_headers req s) (Some (VObj [("key", key)]))].
Proof.
  intros H1 H2. open_state s. unfold ServerJs.api_cart_remove_item, session_headers.
  crunch; events; reflexivity.
Qed.

Lemma part_000_remove_call req w s key t1 :
  destructure (req_body req) "key" = inr key ->
  ToString Number_toString key = inr t1 ->
  fetched (events_since s
             (snd (serve (Part000.api_cart_remove_item Number_toString cfg) req w s))) =
    [MkOutbound (interpolate (WOO_API_URL cfg) +:+ "/cart/remove-item") "POST"
       (session_headers req s) (Some (VObj [("key", key)]))].
Proof.
  intros H1 H2. open_state s. unfold Part000.api_cart_remove_item, session_headers.
  crunch; events; reflexivity.
Qed.

(** The calls a handler makes when its request body may or may not be
    readable: none, or the one above. *)
Lemma mutating_calls_headers (handler : request -> M unit) req w s :
  In handler
     [api_cart_add Number_toString cfg;
      api_cart_update_item Number_toString cfg;
      ServerJs.api_cart_remove_item Number_toString cfg;
      Part000.api_cart_remove_item Number_toString cfg] ->
  Forall (fun rq => out_headers rq = session_headers req s)
    (fetched (events_since s (snd (serve handler req w s)))).
Proof.
  intros Hin. cbn [In] in Hin. unfold session_headers. open_state s.
  destruct Hin as [<- | [<- | [<- | [<- | []]]]].
  - unfold api_cart_add. crunch; calls; reflexivity.
  - unfold api_cart_update_item. crunch; calls; reflexivity.
  - unfold ServerJs.api_cart_remove_item. crunch; calls; reflexivity.
  - unfold Part000.api_cart_remove_item. crunch; calls; reflexivity.
Qed.

Lemma reading_calls_headers (handler : request -> M unit) req w s :
  In handler [api_init cfg; api_cart cfg] ->
  fetched (events_since s (snd (serve handler req w s))) =
    [MkOutbound (interpolate (WOO_API_URL cfg) +:+ "/cart") "GET"
       (add_header "Cart-Token" (req_headers req !! "cart-token") base_headers)
       None].
Proof.
  intros Hin. cbn [In] in Hin. open_state s.
  destruct Hin as [<- | [<- | []]].
  - unfold api_init. crunch; events; reflexivity.
  - unfold api_cart. crunch; events; reflexivity.
Qed.

(** X1.  Every outbound call of the five cart handlers (of both files)
    carries the client's [Cart-Token] request header, unchanged, when that
    header is non-empty, and no [Cart-Token] header otherwise. *)
Theorem client_token_is_forwarded (handler : request -> M unit) req w s :
  In handler
     [api_init cfg; api_cart cfg;
      api_cart_add Number_toString cfg;
      api_cart_update_item Number_toString cfg;
      ServerJs.api_cart_remove_item Number_toString cfg;
      Part000.api_cart_remove_item Number_toString cfg] ->
  Forall (forwards_token req) (fetched (events_since s (snd (serve handler req w s)))).
Proof.
  intros Hin. cbn [In] in Hin.
  destruct Hin as [<- | [<- | Hin]].
  - rewrite (reading_calls_headers (api_init cfg)) by (left; reflexivity).
    repeat constructor. apply token_headers_token.
  - rewrite (reading_calls_headers (api_cart cfg)) by (right; left; reflexivity).
    repeat constructor. apply token_headers_token.
  - eapply Forall_impl; [apply mutating_calls_headers; exact Hin|].
    intros rq Hrq. unfold forwards_token. rewrite Hrq.
    apply session_headers_token.
Qed.

(** X2.  The three cart-mutating handlers send the nonce the slot holds
    when they start as the [Nonce] header of their call (no such header
    while the slot is empty); [GET /api/init] and [GET /api/cart] never
    send a [Nonce] header. *)
Theorem nonce_travels_with_mutating_calls req w s :
  (forall handler,
     In handler
        [api_cart_add Number_toString cfg;
         api_cart_update_item Number_toString cfg;
         ServerJs.api_cart_remove_item Number_toString cfg;
         Part000.api_cart_remove_item Number_toString cfg] ->
     Forall (carries_nonce (wooApiNonce s))
       (fetched (events_since s (snd (serve handler req w s))))) /\
  (forall handler,
     In handler [api_init cfg; api_cart cfg] ->
     Forall (carries_nonce None)
       (fetched (events_since s (snd (serve handler req w s))))).
Proof.
  split.
  - intros handler Hin.
    eapply Forall_impl; [apply mutating_calls_headers; exact Hin|].
    intros rq Hrq. unfold carries_nonce. rewrite Hrq.
    apply session_headers_nonce.
  - intros handler Hin. rewrite (reading_calls_headers handler) by exact Hin.
    repeat constructor. apply token_headers_nonce.
Qed.

Lemma init_stores_nonce req w s r n :
  net w (fetches s) = inr r ->
  resp_headers r !! "nonce" = Some n ->
  n <> "" ->
  wooApiNonce (snd (serve (api_init cfg) req w s)) = Some n.
Proof.
  intros Hnet Hnonce Hne. open_state s.
  unfold api_init. drive. rewrite (as_truthy_nonempty _ Hne).
  crunch; reflexivity.
Qed.

(** X3.  The nonce [GET /api/init] takes from its upstream answer is the
    [Nonce] header of the call of the cart-mutating request served next,
    for whatever client that request comes from. *)
Theorem captured_nonce_reaches_next_call (handler : request -> M unit)
    req1 req2 w s r n :
  net w (fetches s) = inr r ->
  resp_headers r !! "nonce" = Some n ->
  n <> "" ->
  In handler
     [api_cart_add Number_toString cfg;
      api_cart_update_item Number_toString cfg;
      ServerJs.api_cart_remove_item Number_toString cfg;
      Part000.api_cart_remove_item Number_toString cfg] ->
  let s1 := snd (serve (api_init cfg) req1 w s) in
  Forall (fun rq => out_headers rq !! "Nonce" = Some n)
    (fetched (events_since s1 (snd (serve handler req2 w s1)))).
Proof.
  intros Hnet Hnonce Hne Hin s1.
  eapply Forall_impl; [apply mutating_calls_headers; exact Hin|].
  intros rq Hrq. rewrite Hrq, session_headers_nonce.
  subst s1. rewrite (init_stores_nonce _ _ _ _ _ Hnet Hnonce Hne).
  apply as_truthy_nonempty. assumption.
Qed.

(** X4.  A cart-mutating handler whose request body is readable issues
    exactly one upstream call, a POST, whatever the upstream answers:
    [/cart/add-item] with the body [{ id: productId, quantity }],
    [/cart/update-item] with [{ key, quantity }], [/cart/remove-item] with
    [{ key }] (in both files). *)
Theorem mutating_handlers_call_once req w s :
  (readable Number_toString (req_body req) ["productId"; "quantity"] ->
   exists pid qty,
     destructure (req_body req) "productId" = inr pid /\
     destructure (req_body req) "quantity" = inr qty /\
     fetched (events_since s (snd (serve (api_cart_add Number_toString cfg) req w s))) =
       [MkOutbound (interpolate (WOO_API_URL cfg) +:+ "/cart/add-item") "POST"
          (session_headers req s) (Some (VObj [("id", pid); ("quantity", qty)]))]) /\
  (readable Number_toString (req_body req) ["key"; "quantity"] ->
   exists key qty,
     destructure (req_body req) "key" = inr key /\
     destructure (req_body req) "quantity" = inr qty /\
     fetched (events_since s
                (snd (serve (api_cart_update_item Number_toString cfg) req w s))) =
       [MkOutbound (interpolate (WOO_API_URL cfg) +:+ "/cart/update-item") "POST"
          (session_headers req s) (Some (VObj [("key", key); ("quantity", qty)]))]) /\
  (readable Number_toString (req_body req) ["key"] ->
   exists key,
     destructure (req_body req) "key" = inr key /\
     forall handler,
       In handler [ServerJs.api_cart_remove_item Number_toString cfg;
                   Part000.api_cart_remove_item Number_toString cfg] ->
       fetched (events_since s (snd (serve handler req w s))) =
         [MkOutbound (interpolate (WOO_API_URL cfg) +:+ "/cart/remove-item") "POST"
            (session_headers req s) (Some (VObj [("key", key)]))]).
Proof.
  repeat split.
  - intros Hread.
    apply readable_cons in Hread as [(pid & t1 & Hd1 & Ht1) Hread].
    apply readable_cons in Hread as [(qty & t2 & Hd2 & Ht2) _].
    exists pid, qty. do 2 (split; [assumption|]). eapply add_call; eassumption.
  - intros Hread.
    apply readable_cons in Hread as [(key & t1 & Hd1 & Ht1) Hread].
    apply readable_cons in Hread as [(qty & t2 & Hd2 & Ht2) _].
    exists key, qty. do 2 (split; [assumption|]). eapply update_call; eassumption.
  - intros Hread.
    apply readable_cons in Hread as [(key & t1 & Hd1 & Ht1) _].
    exists key. split; [assumption|].
    intros handler Hin. cbn [In] in Hin. destruct Hin as [<- | [<- | []]].
    + eapply server_js_remove_call; eassumption.
    + eapply part_000_remove_call; eassumption.
Qed.

(** X5.  [GET /api/products] issues one call, to [/products?per_page=100],
    with the [User-Agent] header and nothing else: neither the client's
    token nor the stored nonce travels with it.  It writes no module-level
    variable, and it relays the body of a success answer with status 200. *)
Theorem products_call_is_anonymous req w s :
  let out := serve (api_products Number_toString cfg) req w s in
  fetched (events_since s (snd out)) =
    [MkOutbound (interpolate (WOO_API_URL cfg) +:+ "/products?per_page=100") "GET"
       (<["User-Agent" := USER_AGENT_STRING]> ∅) None] /\
  globals (snd out) = globals s /\
  forall r data,
    net w (fetches s) = inr r -> ok r = true -> json r = inr data ->
    sent (events_since s (snd out)) = [(200, ∅, JsonBody data)].
Proof.
  intros out. subst out. split; [|split].
  - open_state s. unfold api_products. crunch; events; reflexivity.
  - apply keeps_serve; [reflexivity|]. apply api_products_keeps_globals.
  - intros r data Hnet Hok Hj. open_state s. unfold api_products.
    drive. events. reflexivity.
Qed.

End OutboundCalls.

(** ** The responses of the relay handlers *)

Section Responses.

Variable Number_toString : Q -> string.
Variable cfg : config.

(** X6.  [GET /api/init] and [GET /api/cart] on a success answer that
    carries no [woocommerce-session] header: the response has status 200
    and no [Cart-Token] header, and the [cartToken] field of its body is
    the token the client sent ([undefined] if it sent none). *)
Theorem client_token_is_echoed (handler : request -> M unit) req w s r data :
  In handler [api_init cfg; api_cart cfg] ->
  net w (fetches s) = inr r ->
  ok r = true ->
  json r = inr data ->
  resp_headers r !! "woocommerce-session" = None ->
  sent (events_since s (snd (serve handler req w s))) =
    [(200, ∅,
      JsonBody (VObj [("cart", data);
                      ("cartToken", or_undefined (req_headers req !! "cart-token"))]))].
Proof.
  intros Hin Hnet Hok Hj Hsess. cbn [In] in Hin. open_state s.
  destruct Hin as [<- | [<- | []]].
  - unfold api_init. drive. cbn [as_truthy]. crunch; events; reflexivity.
  - unfold api_cart. drive. cbn [as_truthy]. crunch; events; reflexivity.
Qed.

(** X7.  On a success answer with a JSON body, [POST /api/cart/add] and
    [POST /api/cart/update-item], and [POST /api/cart/remove-item] of
    [src/server.js] when the status is not 204, respond with the upstream
    status and the upstream body as it is, and with the upstream session
    token, if there is a non-empty one, as the [Cart-Token] header. *)
Theorem success_is_relayed (e : endpoint) req w s r data :
  In e [POST_cart_add; POST_cart_update_item; POST_cart_remove_item] ->
  readable Number_toString (req_body req) (body_fields e) ->
  net w (fetches s) = inr r ->
  ok r = true ->
  status r <> 204 \/ e <> POST_cart_remove_item ->
  json r = inr data ->
  let out := serve (ServerJs.route Number_toString cfg e) req w s in
  fst out = Normal VUndefined /\
  sent (events_since s (snd out)) =
    [(status r,
      add_header "Cart-Token" (resp_headers r !! "woocommerce-session") ∅,
      JsonBody data)].
Proof.
  intros Hin Hread Hnet Hok Hst Hj out. subst out. cbn [In] in Hin.
  destruct Hin as [<- | [<- | [<- | []]]]; cbn [body_fields] in Hread;
    cbn [ServerJs.route].
  - apply readable_cons in Hread as [(pid & t1 & Hd1 & Ht1) Hread].
    apply readable_cons in Hread as [(qty & t2 & Hd2 & Ht2) _].
    open_state s. unfold api_cart_add, add_header.
    crunch; (split; [reflexivity|events; reflexivity]).
  - apply readable_cons in Hread as [(key & t1 & Hd1 & Ht1) Hread].
    apply readable_cons in Hread as [(qty & t2 & Hd2 & Ht2) _].
    open_state s. unfold api_cart_update_item, add_header.
    crunch; (split; [reflexivity|events; reflexivity]).
  - apply readable_cons in Hread as [(key & t1 & Hd1 & Ht1) _].
    assert (H204 : (status r =? 204) = false).
    { apply Z.eqb_neq. destruct Hst as [Hst | Hst]; [assumption|contradiction]. }
    open_state s. unfold ServerJs.api_cart_remove_item, add_header.
    crunch; (split; [reflexivity|events; reflexivity]).
Qed.

(** X8.  In [src/server.js] every request whose body is readable is
    answered exactly once, whatever the upstream does: the handler ends
    normally, has sent one response, and has issued at most one call. *)
Theorem server_js_answers_exactly_once (e : endpoint) req w s :
  readable Number_toString (req_body req) (body_fields e) ->
  let out := serve (ServerJs.route Number_toString cfg e) req w s in
  fst out = Normal VUndefined /\
  length (sent (events_since s (snd out))) = 1%nat /\
  (length (fetched (events_since s (snd out))) <= 1)%nat.
Proof.
  intros Hread out. subst out.
  destruct e; cbn [body_fields] in Hread; cbn [ServerJs.route].
  - open_state s. unfold api_init.
    crunch; (split; [reflexivity|]); events;
      (split; [reflexivity|unfold fetched; cbn [omap list_omap length]; lia]).
  - open_state s. unfold ServerJs.api_exchange_rates, ServerJs.fetchExchangeRates.
    crunch; (split; [reflexivity|]); events;
      (split; [reflexivity|unfold fetched; cbn [omap list_omap length]; lia]).
  - open_state s. unfold api_products.
    crunch; (split; [reflexivity|]); events;
      (split; [reflexivity|unfold fetched; cbn [omap list_omap length]; lia]).
  - apply readable_cons in Hread as [(pid & t1 & Hd1 & Ht1) Hread].
    apply readable_cons in Hread as [(qty & t2 & Hd2 & Ht2) _].
    open_state s. unfold api_cart_add.
    crunch; (split; [reflexivity|]); events;
      (split; [reflexivity|unfold fetched; cbn [omap list_omap length]; lia]).
  - apply readable_cons in Hread as [(key & t1 & Hd1 & Ht1) Hread].
    apply readable_cons in Hread as [(qty & t2 & Hd2 & Ht2) _].
    open_state s. unfold api_cart_update_item.
    crunch; (split; [reflexivity|]); events;
      (split; [reflexivity|unfold fetched; cbn [omap list_omap length]; lia]).
  - apply readable_cons in Hread as [(key & t1 & Hd1 & Ht1) _].
    open_state s. unfold ServerJs.api_cart_remove_item.
    crunch; (split; [reflexivity|]); events;
      (split; [reflexivity|unfold fetched; cbn [omap list_omap length]; lia]).
  - open_state s. unfold api_cart.
    crunch; (split; [reflexivity|]); events;
      (split; [reflexivity|unfold fetched; cbn [omap list_omap length]; lia]).
Qed.

(** X9.  [POST /api/cart/remove-item] of [src/unnamed/part_000], on a
    readable body, sends a response if and only if the upstream answers
    with status 204; when [fetch] throws or the status is another one, the
    handler ends by throwing and sends nothing. *)
Theorem part_000_remove_item_answers_204_only req w s :
  readable Number_toString (req_body req) ["key"] ->
  let out := serve (Part000.api_cart_remove_item Number_toString cfg) req w s in
  (sent (events_since s (snd out)) <> [] <->
   exists r, net w (fetches s) = inr r /\ status r = 204) /\
  (sent (events_since s (snd out)) = [] ->
   fst out = Thrown (not_defined "showCartError")).
Proof.
  intros Hread out. subst out.
  apply readable_cons in Hread as [(key & t1 & Hd1 & Ht1) _].
  open_state s. unfold Part000.api_cart_remove_item. drive.
  match goal with
  | |- context [net w ?k] => destruct (net w k) as [e|r] eqn:Hnet
  end; mred.
  - split; [|reflexivity]. events.
    split; [intros H; contradiction H; reflexivity|].
    intros (r & Hr & _). discriminate Hr.
  - destruct (Z.eqb_spec (status r) 204) as [H204|H204].
    + crunch; events; (split; [|intros H; discriminate H]);
        (split; [intros _; exists r; split; [reflexivity|assumption]
                |intros _; discriminate]).
    + crunch; events; (split; [|reflexivity]);
        (split; [intros H; contradiction H; reflexivity
                |intros (r0 & Heq & Hst); injection Heq as <-; contradiction]).
Qed.

(** X10.  A cart-mutating request without a body ([req.body] is
    [undefined] or [null]) makes the handler throw a [TypeError] at its
    first statement: no call is issued, no response is sent, no
    module-level variable is written. *)
Theorem missing_body_throws_before_any_call (handler : request -> M unit) req w s :
  In handler
     [api_cart_add Number_toString cfg;
      api_cart_update_item Number_toString cfg;
      ServerJs.api_cart_remove_item Number_toString cfg;
      Part000.api_cart_remove_item Number_toString cfg] ->
  req_body req = VUndefined \/ req_body req = VNull ->
  let out := serve handler req w s in
  (exists e, fst out = Thrown e /\ kind e = TypeError) /\
  events_since s (snd out) = [] /\
  globals (snd out) = globals s.
Proof.
  intros Hin Hbody out. subst out. cbn [In] in Hin. open_state s.
  destruct Hin as [<- | [<- | [<- | [<- | []]]]]; destruct Hbody as [Hb | Hb].
  all: unfold api_cart_add, api_cart_update_item,
         ServerJs.api_cart_remove_item, Part000.api_cart_remove_item;
    mred; rewrite Hb; cbn [destructure]; mred;
    (split; [eexists; split; reflexivity|]);
    split; [events_all; reflexivity|reflexivity].
Qed.

(** X11.  When the upstream answers with a non-success status and the
    JSON body [null], reading [data.message] throws: [GET /api/init],
    [GET /api/cart] and [POST /api/cart/add] respond with status 500 and
    the error's message, [POST /api/cart/update-item] with status 500; the
    upstream status is not relayed. *)
Theorem null_error_payload_gives_500 req w s r :
  net w (fetches s) = inr r ->
  ok r = false ->
  json r = inr VNull ->
  (forall handler,
     In handler [api_init cfg; api_cart cfg] ->
     exists text,
       answers_500_with text (events_since s (snd (serve handler req w s)))) /\
  (readable Number_toString (req_body req) ["productId"; "quantity"] ->
   exists text,
     answers_500_with text
       (events_since s (snd (serve (api_cart_add Number_toString cfg) req w s)))) /\
  (readable Number_toString (req_body req) ["key"; "quantity"] ->
   exists hs body,
     sent (events_since s
             (snd (serve (api_cart_update_item Number_toString cfg) req w s))) =
       [(500, hs, body)]).
Proof.
  intros Hnet Hok Hj. unfold answers_500_with. repeat split.
  - intros handler Hin. cbn [In] in Hin. open_state s.
    destruct Hin as [<- | [<- | []]].
    + unfold api_init. drive. cbn [get_prop]. crunch; do 3 eexists; events; reflexivity.
    + unfold api_cart. drive. cbn [get_prop]. crunch; do 3 eexists; events; reflexivity.
  - intros Hread.
    apply readable_cons in Hread as [(pid & t1 & Hd1 & Ht1) Hread].
    apply readable_cons in Hread as [(qty & t2 & Hd2 & Ht2) _].
    open_state s. unfold api_cart_add. drive. cbn [get_prop].
    crunch; do 3 eexists; events; reflexivity.
  - intros Hread.
    apply readable_cons in Hread as [(key & t1 & Hd1 & Ht1) Hread].
    apply readable_cons in Hread as [(qty & t2 & Hd2 & Ht2) _].
    open_state s. unfold api_cart_update_item. drive. cbn [get_prop].
    crunch; do 2 eexists; events; reflexivity.
Qed.

End Responses.

(** ** The rate cache across requests *)

Lemma run_requests_preserves (I : state -> Prop) route rs w s :
  (forall e req s0, I s0 -> I (snd (serve (route e) req w s0))) ->
  I s -> I (run_requests route rs w s).
Proof.
  intros Hstep. revert s.
  induction rs as [|[e req] rs IH]; intros s Hs; cbn [run_requests]; auto.
Qed.

Section RateCacheAcrossRequests.

Variable Number_toString : Q -> string.
Variable cfg : config.

Lemma cart_routes_keep_rates_cache e req :
  e <> GET_exchange_rates ->
  keeps rates_cache (serve (Part000.route Number_toString cfg e) req) /\
  keeps rates_cache (serve (ServerJs.route Number_toString cfg e) req).
Proof.
  intros He. split.
  - apply keeps_serve; [apply rates_cache_with_res|].
    destruct e; try contradiction; cbn [Part000.route];
      first [ apply api_init_keeps_rates_cache | apply globals_rates_cache ];
      auto using api_cart_keeps_globals, api_products_keeps_globals,
        api_cart_add_keeps_globals, api_cart_update_item_keeps_globals,
        part_000_remove_item_keeps_globals.
  - apply server_js_route_keeps_rates_cache.
Qed.

(** X12.  Cart traffic cannot disturb the rate cache: in both files, a
    request to any endpoint other than [GET /api/exchange-rates] leaves
    [cachedExchangeRates] and [lastFetchTime] as they were, whatever the
    upstream answers; in [src/server.js] so does [GET /api/exchange-rates]. *)
Theorem only_exchange_rates_writes_the_cache e req w s :
  (e <> GET_exchange_rates ->
   rates_cache (snd (serve (Part000.route Number_toString cfg e) req w s))
     = rates_cache s) /\
  rates_cache (snd (serve (ServerJs.route Number_toString cfg e) req w s))
    = rates_cache s.
Proof.
  split.
  - intros He. apply (cart_routes_keep_rates_cache e req He).
  - apply server_js_route_keeps_rates_cache.
Qed.

Lemma stale_call_fetches w s api_key :
  ~ cache_fresh w s ->
  as_truthy (EXCHANGE_RATE_API_KEY cfg) = Some api_key ->
  fetched (events_since s (snd (Part000.fetchExchangeRates cfg w s)))
    = [rate_request api_key].
Proof.
  intros Hstale Hkey.
  destruct (net w (fetches s)) as [e|r] eqn:Hnet.
  - rewrite (fetchExchangeRates_fetch_threw cfg _ _ _ _ Hstale Hkey Hnet).
    erewrite events_since_app; [|cbn [snd trace]; reflexivity]. reflexivity.
  - destruct (accepted_or_rejected r) as [[pair Hacc]|Hrej].
    + rewrite (fetchExchangeRates_accepted cfg _ _ _ _ _ Hstale Hkey Hnet Hacc).
      erewrite events_since_app; [|cbn [snd trace]; reflexivity]. reflexivity.
    + rewrite (fetchExchangeRates_rejected cfg _ _ _ _ Hstale Hkey Hnet Hrej).
      erewrite events_since_app; [|cbn [snd trace]; reflexivity]. reflexivity.
Qed.

Lemma failure_state w s :
  ~ cache_fresh w s ->
  failure_path cfg w s ->
  rates_cache (snd (Part000.fetchExchangeRates cfg w s)) = rates_cache s /\
  ticks (snd (Part000.fetchExchangeRates cfg w s)) = S (ticks s).
Proof.
  intros Hstale [Hkey | api_key e Hkey Hnet | api_key r Hkey Hnet Hrej].
  - rewrite (fetchExchangeRates_no_key cfg _ _ Hstale Hkey). split; reflexivity.
  - rewrite (fetchExchangeRates_fetch_threw cfg _ _ _ _ Hstale Hkey Hnet).
    split; reflexivity.
  - rewrite (fetchExchangeRates_rejected cfg _ _ _ _ Hstale Hkey Hnet Hrej).
    split; reflexivity.
Qed.

(** X13.  A failed refresh is not remembered: after a call of
    [fetchExchangeRates] that had to fetch and took a failure path, the
    next call (the clock not running backwards) does not serve the cache
    either, and with an API key configured it calls the rate service
    again. *)
Theorem failed_refresh_is_retried w s :
  ~ cache_fresh w s ->
  failure_path cfg w s ->
  let s1 := snd (Part000.fetchExchangeRates cfg w s) in
  clock w (ticks s) <= clock w (ticks s1) ->
  ~ cache_fresh w s1 /\
  forall api_key,
    as_truthy (EXCHANGE_RATE_API_KEY cfg) = Some api_key ->
    fetched (events_since s1 (snd (Part000.fetchExchangeRates cfg w s1)))
      = [rate_request api_key].
Proof.
  intros Hstale Hfail s1 Hclock.
  assert (Hstale1 : ~ cache_fresh w s1).
  { destruct (failure_state w s Hstale Hfail) as [Hsame _].
    fold s1 in Hsame. unfold rates_cache in Hsame. injection Hsame as Hc Ht.
    intros [Hlt Htruthy]. apply Hstale. split.
    - rewrite Ht in Hlt. lia.
    - rewrite <- Hc. assumption. }
  split; [assumption|].
  intros api_key Hkey. apply stale_call_fetches; assumption.
Qed.

Lemma fetchExchangeRates_cache_shape w s :
  rate_pair_or_null (cachedExchangeRates s) ->
  rate_pair_or_null (cachedExchangeRates (snd (Part000.fetchExchangeRates cfg w s))).
Proof.
  intros Hshape.
  destruct (cache_fresh_dec w s) as [Hfresh|Hstale].
  - rewrite (fetchExchangeRates_cached cfg _ _ Hfresh). exact Hshape.
  - destruct (fetchExchangeRates_paths cfg w s)
      as [Hfresh | [Hfail | (api_key & r & pair & Hkey & Hnet & Hacc)]].
    + contradiction.
    + destruct (failure_state w s Hstale Hfail) as [Hsame _].
      unfold rates_cache in Hsame. injection Hsame as Hc _. rewrite Hc.
      exact Hshape.
    + rewrite (fetchExchangeRates_accepted cfg _ _ _ _ _ Hstale Hkey Hnet Hacc).
      cbn [snd cachedExchangeRates]. destruct Hacc. right. eauto.
Qed.

Lemma exchange_rates_cache req w s :
  cachedExchangeRates (snd (serve (Part000.api_exchange_rates cfg) req w s)) =
  cachedExchangeRates
    (snd (Part000.fetchExchangeRates cfg w (with_res fresh_res s))).
Proof.
  unfold serve, call, Part000.api_exchange_rates, bind.
  destruct (Part000.fetchExchangeRates cfg w (with_res fresh_res s))
    as [[v | v | e] s1]; reflexivity.
Qed.

Lemma part_000_route_cache_shape e req w s :
  rate_pair_or_null (cachedExchangeRates s) ->
  rate_pair_or_null
    (cachedExchangeRates (snd (serve (Part000.route Number_toString cfg e) req w s))).
Proof.
  intros Hshape.
  assert (He : e = GET_exchange_rates \/ e <> GET_exchange_rates)
    by (destruct e; first [left; reflexivity | right; discriminate]).
  destruct He as [-> | He].
  - cbn [Part000.route]. rewrite exchange_rates_cache.
    apply fetchExchangeRates_cache_shape. exact Hshape.
  - destruct (cart_routes_keep_rates_cache e req He) as [Hkeep _].
    specialize (Hkeep w s). unfold rates_cache in Hkeep.
    injection Hkeep as Hc _. rewrite Hc. exact Hshape.
Qed.

(** X14.  In [src/unnamed/part_000], from start-up on and whatever requests
    are served, [cachedExchangeRates] is [null] or an object with exactly
    the two fields [USD] and [ZAR]; and [GET /api/exchange-rates] always
    answers, once, with status 200 and an object with exactly these two
    fields, and never throws. *)
Theorem exchange_rates_always_answers_a_pair rs req w :
  let s := run_requests (Part000.route Number_toString cfg) rs w
             (Part000.listening cfg w) in
  let out := serve (Part000.api_exchange_rates cfg) req w s in
  rate_pair_or_null (cachedExchangeRates s) /\
  fst out = Normal VUndefined /\
  exists usd zar,
    sent (events_since s (snd out)) =
      [(200, ∅, JsonBody (VObj [("USD", usd); ("ZAR", zar)]))].
Proof.
  intros s out.
  assert (Hshape : rate_pair_or_null (cachedExchangeRates s)).
  { subst s.
    apply (run_requests_preserves
             (fun s0 => rate_pair_or_null (cachedExchangeRates s0))).
    - intros e req0 s0. apply part_000_route_cache_shape.
    - unfold Part000.listening. apply fetchExchangeRates_cache_shape.
      left. reflexivity. }
  split; [exact Hshape|].
  subst out. clearbody s. open_state s.
  unfold Part000.api_exchange_rates, Part000.fetchExchangeRates.
  destruct Hshape as [-> | (usd & zar & ->)].
  - mred. cbn [truthy]. rewrite Bool.andb_false_r.
    crunch; (split; [reflexivity|]); do 2 eexists; events; reflexivity.
  - mred. cbn [truthy]. rewrite Bool.andb_true_r.
    crunch; (split; [reflexivity|]); do 2 eexists; events; reflexivity.
Qed.

(** X15.  The nonce slot is never cleared and never holds the empty
    string it did not hold before: across any sequence of requests, in
    both files, [wooApiNonce] is what it was or a non-empty nonce. *)
Theorem nonce_is_never_cleared rs w s :
  nonce_kept_or_renewed (wooApiNonce s)
    (wooApiNonce (run_requests (ServerJs.route Number_toString cfg) rs w s)) /\
  nonce_kept_or_renewed (wooApiNonce s)
    (wooApiNonce (run_requests (Part000.route Number_toString cfg) rs w s)).
Proof.
  assert (Hinit : forall req s0,
            nonce_kept_or_renewed (wooApiNonce s0)
              (wooApiNonce (snd (serve (api_init cfg) req w s0)))).
  { intros req s0. open_state s0. unfold api_init.
    crunch;
      first [ left; reflexivity
            | right; eexists; split; [|reflexivity];
              match goal with
              | H : as_truthy (_ !! "nonce") = Some _ |- _ =>
                  apply as_truthy_Some in H; apply H
              end ]. }
  assert (Hkept : forall (h : request -> M unit) req s0,
            keeps globals (h req) ->
            nonce_kept_or_renewed (wooApiNonce s0)
              (wooApiNonce (snd (serve h req w s0)))).
  { intros h req s0 Hk. left.
    change (fst (fst (globals (snd (serve h req w s0)))) = fst (fst (globals s0))).
    f_equal. f_equal. apply keeps_serve; [reflexivity|exact Hk]. }
  assert (Hrates : forall req s0,
            nonce_kept_or_renewed (wooApiNonce s0)
              (wooApiNonce (snd (serve (Part000.api_exchange_rates cfg) req w s0)))).
  { intros req s0. left. open_state s0.
    unfold Part000.api_exchange_rates, Part000.fetchExchangeRates.
    crunch; reflexivity. }
  assert (Htrans : forall a b c,
            nonce_kept_or_renewed a b -> nonce_kept_or_renewed b c ->
            nonce_kept_or_renewed a c).
  { intros a b c Hab [-> | Hc]; [exact Hab|right; exact Hc]. }
  split.
  - revert s. induction rs as [|[e req] rs IH]; intros s; cbn [run_requests].
    + left. reflexivity.
    + eapply Htrans; [|apply IH].
      destruct e; cbn [ServerJs.route];
        first [ apply Hinit | apply Hkept ];
        auto using api_cart_keeps_globals, api_products_keeps_globals,
          api_cart_add_keeps_globals, api_cart_update_item_keeps_globals,
          server_js_remove_item_keeps_globals,
          server_js_exchange_rates_keeps_globals.
  - revert s. induction rs as [|[e req] rs IH]; intros s; cbn [run_requests].
    + left. reflexivity.
    + eapply Htrans; [|apply IH].
      destruct e; cbn [Part000.route];
        first [ apply Hinit | apply Hrates | apply Hkept ];
        auto using api_cart_keeps_globals, api_products_keeps_globals,
          api_cart_add_keeps_globals, api_cart_update_item_keeps_globals,
          part_000_remove_item_keeps_globals.
Qed.

End RateCacheAcrossRequests.

(** ** Responses behind the CORS middleware of [src/server.js] *)

Section HeaderInvariant.
Variable P : gmap string string -> Prop.

Lemma header_inv_quiet {A} (m : M A) :
  (forall w s, res (snd (m w s)) = res s /\ trace (snd (m w s)) = trace s) ->
  header_inv P m.
Proof.
  intros H w s HP. destruct (H w s) as [Hres Htrace].
  rewrite Hres. split; [exact HP|].
  exists []. rewrite Htrace, app_nil_r. split; [reflexivity|constructor].
Qed.

Lemma header_inv_event {A} (m : M A) ev :
  sends_with P ev ->
  (forall w s, res (snd (m w s)) = res s /\ trace (snd (m w s)) = trace s ++ [ev]) ->
  header_inv P m.
Proof.
  intros Hev H w s HP. destruct (H w s) as [Hres Htrace].
  rewrite Hres. split; [exact HP|].
  exists [ev]. split; [exact Htrace|]. constructor; [exact Hev|constructor].
Qed.

Lemma header_inv_ret {A} (a : A) : header_inv P (ret a).
Proof. apply header_inv_quiet. intros; split; reflexivity. Qed.

Lemma header_inv_return {A} v : header_inv P (@return_ A v).
Proof. apply header_inv_quiet. intros; split; reflexivity. Qed.

Lemma header_inv_throw {A} e : header_inv P (@throw A e).
Proof. apply header_inv_quiet. intros; split; reflexivity. Qed.

Lemma header_inv_lift {A} (x : exn + A) : header_inv P (lift x).
Proof. apply header_inv_quiet. intros; destruct x; split; reflexivity. Qed.

Lemma header_inv_gets {A} (g : state -> A) : header_inv P (gets g).
Proof. apply header_inv_quiet. intros; split; reflexivity. Qed.

Lemma header_inv_Date_now : header_inv P Date_now.
Proof. apply header_inv_quiet. intros; split; reflexivity. Qed.

Lemma header_inv_fetch rq : header_inv P (fetch rq).
Proof.
  apply (header_inv_event _ (EvFetch rq) I).
  intros w s. unfold fetch. destruct (net w (fetches s)); split; reflexivity.
Qed.

Lemma header_inv_response_json r : header_inv P (response_json r).
Proof.
  apply (header_inv_event _ EvJson I).
  intros w s. unfold response_json. destruct (json r); split; reflexivity.
Qed.

Lemma header_inv_set_wooApiNonce n : header_inv P (set_wooApiNonce n).
Proof.
  apply (header_inv_event _ (EvStore "wooApiNonce" (VStr n)) I).
  intros; split; reflexivity.
Qed.

Lemma header_inv_res_status c : header_inv P (res_status c).
Proof.
  intros w s HP. split; [exact HP|].
  exists []. cbn. rewrite app_nil_r. split; [reflexivity|constructor].
Qed.

Lemma header_inv_res_setHeader k v :
  (forall hs, P hs -> P (<[k := v]> hs)) -> header_inv P (res_setHeader k v).
Proof.
  intros Hins w s HP. split; [apply Hins; exact HP|].
  exists []. cbn. rewrite app_nil_r. split; [reflexivity|constructor].
Qed.

Lemma header_inv_res_json v : header_inv P (res_json v).
Proof.
  intros w s HP. split; [exact HP|].
  exists [EvSend (statusCode (res s)) (res_headers (res s)) (JsonBody v)].
  split; [reflexivity|]. constructor; [exact HP|constructor].
Qed.

Lemma header_inv_res_send : header_inv P res_send.
Proof.
  intros w s HP. split; [exact HP|].
  exists [EvSend (statusCode (res s)) (res_headers (res s)) NoBody].
  split; [reflexivity|]. constructor; [exact HP|constructor].
Qed.

Lemma header_inv_bind {A C} (m : M A) (k : A -> M C) :
  header_inv P m -> (forall a, header_inv P (k a)) -> header_inv P (bind m k).
Proof.
  intros Hm Hk w s HP. unfold bind.
  destruct (Hm w s HP) as (HP1 & evs & Ht & HQ).
  destruct (m w s) as [[a | v | e] s1]; cbn [snd] in *; eauto.
  destruct (Hk a w s1 HP1) as (HP2 & evs' & Ht' & HQ').
  split; [exact HP2|].
  exists (evs ++ evs'). rewrite Ht', Ht, app_assoc. split; [reflexivity|].
  apply Forall_app. split; assumption.
Qed.

Lemma header_inv_try_catch {A} (m : M A) (h : exn -> M A) :
  header_inv P m -> (forall e, header_inv P (h e)) -> header_inv P (try_catch m h).
Proof.
  intros Hm Hh w s HP. unfold try_catch.
  destruct (Hm w s HP) as (HP1 & evs & Ht & HQ).
  destruct (m w s) as [[a | v | e] s1]; cbn [snd] in *; eauto.
  destruct (Hh e w s1 HP1) as (HP2 & evs' & Ht' & HQ').
  split; [exact HP2|].
  exists (evs ++ evs'). rewrite Ht', Ht, app_assoc. split; [reflexivity|].
  apply Forall_app. split; assumption.
Qed.

Lemma header_inv_call (m : M unit) : header_inv P m -> header_inv P (call m).
Proof.
  intros Hm w s HP. unfold call.
  destruct (Hm w s HP) as (HP1 & evs & Ht & HQ).
  destruct (m w s) as [[a | v | e] s1]; cbn [snd] in *; eauto.
Qed.

Lemma header_inv_if {A} (b : bool) (m1 m2 : M A) :
  header_inv P m1 -> header_inv P m2 -> header_inv P (if b then m1 else m2).
Proof. destruct b; auto. Qed.

Lemma header_inv_match_option {A C} (o : option C) (m1 : C -> M A) (m2 : M A) :
  (forall c, header_inv P (m1 c)) -> header_inv P m2 ->
  header_inv P (match o with Some c => m1 c | None => m2 end).
Proof. destruct o; auto. Qed.

End HeaderInvariant.

(** Follows the structure of the computation; leaves the conditions on
    the headers that [res.setHeader] adds. *)
Ltac header_invariant :=
  repeat first
    [ apply header_inv_ret | apply header_inv_return | apply header_inv_throw
    | apply header_inv_lift | apply header_inv_gets | apply header_inv_Date_now
    | apply header_inv_fetch | apply header_inv_response_json
    | apply header_inv_set_wooApiNonce | apply header_inv_res_status
    | apply header_inv_res_json | apply header_inv_res_send
    | apply header_inv_res_setHeader; intros
    | apply header_inv_bind; [ | intros ]
    | apply header_inv_try_catch; [ | intros ]
    | apply header_inv_call
    | apply header_inv_if
    | apply header_inv_match_option; [ intros | ] ].

Lemma cors_headers_with_token origin tok (hs : gmap string string) :
  cors_headers origin hs -> cors_headers origin (<["Cart-Token" := tok]> hs).
Proof.
  unfold cors_headers. rewrite !lookup_insert_ne by discriminate. tauto.
Qed.

Section BehindCors.

Variable Number_toString : Q -> string.
Variable cfg : config.

Lemma server_js_route_header_inv origin e req :
  header_inv (cors_headers origin) (ServerJs.route Number_toString cfg e req).
Proof.
  destruct e; cbn [ServerJs.route].
  - unfold api_init. header_invariant; auto using cors_headers_with_token.
  - unfold ServerJs.api_exchange_rates, ServerJs.fetchExchangeRates.
    header_invariant; auto using cors_headers_with_token.
  - unfold api_products. header_invariant; auto using cors_headers_with_token.
  - unfold api_cart_add. header_invariant; auto using cors_headers_with_token.
  - unfold api_cart_update_item. header_invariant; auto using cors_headers_with_token.
  - unfold ServerJs.api_cart_remove_item.
    header_invariant; auto using cors_headers_with_token.
  - unfold api_cart. header_invariant; auto using cors_headers_with_token.
Qed.

(** What the middleware does to a fresh response object. *)
Lemma cors_middleware_fresh method req w s :
  exists hs,
    cors_middleware method req w (with_res fresh_res s) =
      (Normal (if String.eqb method "OPTIONS" then Ended 200 else Next),
       with_res (MkRes 200 hs) s) /\
    cors_headers (req_headers req !! "origin") hs.
Proof.
  open_state s. unfold cors_middleware.
  destruct (req_headers req !! "origin") as [o|] eqn:Ho.
  - destruct (String.eqb_spec o allowedFrontendOrigin) as [-> | Hne].
    + eexists. split.
      * mred. destruct (String.eqb method "OPTIONS"); reflexivity.
      * unfold cors_headers. repeat split; try reflexivity; congruence.
    + eexists. split.
      * mred. destruct (String.eqb method "OPTIONS"); reflexivity.
      * unfold cors_headers. repeat split; try reflexivity; congruence.
  - eexists. split.
    + mred. destruct (String.eqb method "OPTIONS"); reflexivity.
    + unfold cors_headers. repeat split; try reflexivity; congruence.
Qed.

(** X16.  In [src/server.js], every response a handler sends to a request
    that passed the middleware carries [Access-Control-Allow-Methods] and
    [Access-Control-Allow-Headers]; it carries
    [Access-Control-Allow-Origin] (that origin) and
    [Access-Control-Allow-Credentials: true] when the [Origin] request
    header is exactly the allowed front-end origin, and neither of the two
    for any other origin or none. *)
Theorem responses_carry_cors_headers method e req w s :
  Forall (sends_with (cors_headers (req_headers req !! "origin")))
    (events_since s
       (snd (behind_cors method (ServerJs.route Number_toString cfg e) req w s))).
Proof.
  unfold behind_cors, bind.
  destruct (cors_middleware_fresh method req w s) as (hs & -> & Hcors).
  destruct (String.eqb method "OPTIONS").
  - unfold ret. cbn [snd]. unfold events_since, with_res. cbn [trace].
    rewrite drop_all. constructor.
  - pose proof (header_inv_call _ _
                  (server_js_route_header_inv (req_headers req !! "origin") e req)
                  w (with_res (MkRes 200 hs) s) Hcors)
      as (_ & evs & Ht & Hall).
    destruct (call (ServerJs.route Number_toString cfg e req) w
                (with_res (MkRes 200 hs) s)) as [[v | v | err] s1];
      cbn [snd ret] in *;
      (erewrite events_since_app; [exact Hall|exact Ht]).
Qed.

(** X17.  In [src/server.js] a preflight request (method [OPTIONS]) is
    ended by the middleware with status 200: no handler runs, whatever the
    path, so no upstream call is issued and no module-level variable is
    written. *)
Theorem preflight_never_reaches_a_handler (handler : request -> M unit) req w s :
  let out := behind_cors "OPTIONS" handler req w s in
  fst out = Normal (Ended 200) /\
  events_since s (snd out) = [] /\
  globals (snd out) = globals s /\
  cors_headers (req_headers req !! "origin") (res_headers (res (snd out))).
Proof.
  intros out. subst out. unfold behind_cors, bind.
  destruct (cors_middleware_fresh "OPTIONS" req w s) as (hs & -> & Hcors).
  rewrite String.eqb_refl. unfold ret. cbn [fst snd].
  split; [reflexivity|]. split; [|split; [reflexivity|exact Hcors]].
  unfold events_since, with_res. cbn [trace]. apply drop_all.
Qed.

End BehindCors.

(** ** Concrete runs of the further properties *)

Lemma remove_request_readable :
  readable integer_toString (req_body remove_request) ["key"].
Proof. repeat constructor. exists (VStr "item-7"), "item-7". split; reflexivity. Qed.

Lemma add_request_readable :
  readable integer_toString (req_body add_request) ["productId"; "quantity"].
Proof.
  repeat constructor.
  - exists (VNum (inject_Z 42)), "42". split; reflexivity.
  - exists (VNum (inject_Z 2)), "2". split; reflexivity.
Qed.

Lemma client_token_is_forwarded_witness :
  Forall (fun rq => out_headers rq !! "Cart-Token" = Some "tok-9")
    (fetched (events_since Part000.loaded
                (snd (serve (api_cart demo_cfg) token_request (always session_reply)
                        Part000.loaded)))).
Proof.
  apply (client_token_is_forwarded integer_toString demo_cfg (api_cart demo_cfg)
           token_request (always session_reply) Part000.loaded).
  right. left. reflexivity.
Defined.

Lemma nonce_travels_with_mutating_calls_witness :
  let s1 := snd (serve (api_init demo_cfg) bare_request (always session_reply)
                   Part000.loaded) in
  Forall (carries_nonce (Some "n-1"))
    (fetched (events_since s1
                (snd (serve (api_cart_add integer_toString demo_cfg) add_request
                        (always session_reply) s1)))).
Proof.
  intros s1.
  apply (proj1 (nonce_travels_with_mutating_calls integer_toString demo_cfg
                  add_request (always session_reply) s1)
           (api_cart_add integer_toString demo_cfg)).
  left. reflexivity.
Defined.

Lemma captured_nonce_reaches_next_call_witness :
  let s1 := snd (serve (api_init demo_cfg) bare_request (always session_reply)
                   Part000.loaded) in
  Forall (fun rq => out_headers rq !! "Nonce" = Some "n-1")
    (fetched (events_since s1
                (snd (serve (api_cart_add integer_toString demo_cfg) add_request
                        (always session_reply) s1)))).
Proof.
  apply (captured_nonce_reaches_next_call integer_toString demo_cfg
           (api_cart_add integer_toString demo_cfg) bare_request add_request
           (always session_reply) Part000.loaded session_reply "n-1");
    [reflexivity | reflexivity | discriminate | left; reflexivity].
Defined.

Lemma mutating_handlers_call_once_witness :
  exists pid qty,
    destructure (req_body add_request) "productId" = inr pid /\
    destructure (req_body add_request) "quantity" = inr qty /\
    fetched (events_since Part000.loaded
               (snd (serve (api_cart_add integer_toString demo_cfg) add_request
                       offline Part000.loaded))) =
      [MkOutbound
         (interpolate (WOO_API_URL demo_cfg) +:+ "/cart/add-item") "POST"
         (session_headers add_request Part000.loaded)
         (Some (VObj [("id", pid); ("quantity", qty)]))].
Proof.
  apply (proj1 (mutating_handlers_call_once integer_toString demo_cfg add_request
                  offline Part000.loaded)).
  exact add_request_readable.
Defined.

Lemma products_call_is_anonymous_witness :
  sent (events_since Part000.loaded
          (snd (serve (api_products integer_toString demo_cfg) token_request
                  (always tokenless_reply) Part000.loaded)))
  = [(200, ∅, JsonBody (VObj [("items", VArr [])]))].
Proof.
  apply (proj2 (proj2 (products_call_is_anonymous integer_toString demo_cfg
                         token_request (always tokenless_reply) Part000.loaded))
           tokenless_reply);
    reflexivity.
Defined.

Lemma client_token_is_echoed_witness :
  sent (events_since Part000.loaded
          (snd (serve (api_cart demo_cfg) token_request (always tokenless_reply)
                  Part000.loaded)))
  = [(200, ∅,
      JsonBody (VObj [("cart", VObj [("items", VArr [])]);
                      ("cartToken", VStr "tok-9")]))].
Proof.
  apply (client_token_is_echoed demo_cfg (api_cart demo_cfg) token_request
           (always tokenless_reply) Part000.loaded tokenless_reply);
    try reflexivity.
  right. left. reflexivity.
Defined.

Lemma success_is_relayed_witness :
  sent (events_since Part000.loaded
          (snd (serve (ServerJs.route integer_toString demo_cfg POST_cart_add)
                  add_request (always created_reply) Part000.loaded)))
  = [(201, add_header "Cart-Token" (Some "tok-3") ∅,
      JsonBody (VObj [("items", VArr [VObj [("id", VNum (inject_Z 42))]])]))].
Proof.
  apply (success_is_relayed integer_toString demo_cfg POST_cart_add add_request
           (always created_reply) Part000.loaded created_reply);
    try reflexivity.
  - left. reflexivity.
  - exact add_request_readable.
  - right. discriminate.
Defined.

Lemma server_js_answers_exactly_once_witness :
  length (sent (events_since Part000.loaded
                  (snd (serve (ServerJs.route integer_toString demo_cfg
                                 POST_cart_remove_item)
                          remove_request offline Part000.loaded)))) = 1%nat.
Proof.
  apply (server_js_answers_exactly_once integer_toString demo_cfg
           POST_cart_remove_item remove_request offline Part000.loaded).
  exact remove_request_readable.
Defined.

Lemma part_000_remove_item_answers_204_only_witness :
  sent (events_since Part000.loaded
          (snd (serve (Part000.api_cart_remove_item integer_toString demo_cfg)
                  remove_request (always no_content_reply) Part000.loaded)))
  <> [].
Proof.
  apply (proj1 (part_000_remove_item_answers_204_only integer_toString demo_cfg
                  remove_request (always no_content_reply) Part000.loaded
                  remove_request_readable)).
  exists no_content_reply. split; reflexivity.
Defined.

Lemma missing_body_throws_before_any_call_witness :
  events_since Part000.loaded
    (snd (serve (api_cart_add integer_toString demo_cfg) (MkRequest ∅ VUndefined)
            (always session_reply) Part000.loaded)) = [].
Proof.
  apply (missing_body_throws_before_any_call integer_toString demo_cfg
           (api_cart_add integer_toString demo_cfg) (MkRequest ∅ VUndefined)
           (always session_reply) Part000.loaded).
  - left. reflexivity.
  - left. reflexivity.
Defined.

Lemma null_error_payload_gives_500_witness :
  exists text,
    answers_500_with text
      (events_since Part000.loaded
         (snd (serve (api_init demo_cfg) bare_request (always null_error_reply)
                 Part000.loaded))).
Proof.
  apply (proj1 (null_error_payload_gives_500 integer_toString demo_cfg bare_request
                  (always null_error_reply) Part000.loaded null_error_reply
                  eq_refl eq_refl eq_refl)).
  left. reflexivity.
Defined.

Lemma only_exchange_rates_writes_the_cache_witness :
  let s1 := Part000.listening demo_cfg rate_world in
  rates_cache (snd (serve (Part000.route integer_toString demo_cfg POST_cart_add)
                      add_request (always created_reply) s1))
  = rates_cache s1.
Proof.
  intros s1.
  apply (proj1 (only_exchange_rates_writes_the_cache integer_toString demo_cfg
                  POST_cart_add add_request (always created_reply) s1)).
  discriminate.
Defined.

Lemma failed_refresh_is_retried_witness :
  let s1 := snd (Part000.fetchExchangeRates demo_cfg offline Part000.loaded) in
  fetched (events_since s1 (snd (Part000.fetchExchangeRates demo_cfg offline s1)))
  = [rate_request "rate-key"].
Proof.
  intros s1.
  apply (proj2 (failed_refresh_is_retried demo_cfg offline Part000.loaded
                  (loaded_is_stale offline)
                  (fetch_threw demo_cfg offline Part000.loaded "rate-key"
                     (MkExn FetchError "connect ECONNREFUSED") eq_refl eq_refl)
                  ltac:(vm_compute; discriminate))).
  reflexivity.
Defined.

(** A request of the allowed front end through the middleware and
    [GET /api/cart]. *)
Example cart_response_behind_cors :
  sent (events_since Part000.loaded
          (snd (behind_cors "GET" (ServerJs.route integer_toString demo_cfg GET_cart)
                  frontend_request (always tokenless_reply) Part000.loaded)))
  = [(200,
      <["Access-Control-Allow-Headers" :=
          "Content-Type, Authorization, Cart-Token, woocommerce-session"]>
        (<["Access-Control-Allow-Methods" := "GET, POST, PUT, DELETE, OPTIONS"]>
           (<["Access-Control-Allow-Credentials" := "true"]>
              (<["Access-Control-Allow-Origin" := allowedFrontendOrigin]> ∅))),
      JsonBody (VObj [("cart", VObj [("items", VArr [])]);
                      ("cartToken", VUndefined)]))].
Proof. vm_compute. reflexivity. Qed.
